(** * Stockmarket-USA: the Alpha Vantage service module

    A shallow embedding of [src/services/api_service.py]:

    - [fetch_intraday_data] (the spec's Fetcher): one HTTP request, and every
      failure downgraded to the pair [(None, True)];
    - [parse_time_series] (the spec's Normalizer): the JSON payload turned
      into a table sorted by timestamp, with demo data when there is no
      payload.

    Python values are modelled as they are at run time: the body of a
    response is an arbitrary JSON value, a [dict] is an association list in
    insertion order, an exception is a value of [exn], and a call that may
    raise returns a [result].  The calls into [requests] and [pandas] are
    modelled by what those libraries do on the values the module hands them;
    what depends on their parsers (dates, numbers) is a parameter. *)

From Stdlib Require Import String Ascii List Bool ZArith QArith Lia.
From Stdlib Require Import DecimalString Permutation Sorted.
Import ListNotations.
Close Scope Q_scope.
Open Scope list_scope.
Open Scope string_scope.
Set Warnings "-register-all".

(** ** Python values *)

(** What [response.json()] can return.  A JSON object keeps the order of its
    keys (a Python [dict] iterates in insertion order). *)
Inductive json : Type :=
| JNull
| JBool (b : bool)
| JNum (q : Q)
| JStr (s : string)
| JArr (items : list json)
| JObj (members : list (string * json)).

(** The exceptions the module can meet, all of them subclasses of
    [Exception].  [ConnectTimeout] derives from both [ConnectionError] and
    [Timeout], as in [requests.exceptions].  An [HTTPError] is the one built
    by [raise_for_status], which attaches the response: the model keeps its
    status code.  Signals that are not [Exception]s ([KeyboardInterrupt],
    [SystemExit]) are not part of the model. *)
Inductive exn : Type :=
| HTTPError (status : Z) (msg : string)
| ConnectionError (msg : string)
| ConnectTimeout (msg : string)
| Timeout (msg : string)
| JSONDecodeError (msg : string)
| ValueError (msg : string)
| TypeError (msg : string)
| AttributeError (msg : string)
| KeyError (msg : string)
| OtherException (msg : string).

(** The classes named by the [except] clauses of [fetch_intraday_data]. *)
Inductive exn_class : Type :=
| cHTTPError
| cConnectionError
| cTimeout
| cException.

Definition isinstance (e : exn) (c : exn_class) : bool :=
  match c, e with
  | cException, _ => true
  | cHTTPError, HTTPError _ _ => true
  | cConnectionError, (ConnectionError _ | ConnectTimeout _) => true
  | cTimeout, (Timeout _ | ConnectTimeout _) => true
  | _, _ => false
  end.

(** [str(e)] *)
Definition str_exn (e : exn) : string :=
  match e with
  | HTTPError _ m | ConnectionError m | ConnectTimeout m | Timeout m
  | JSONDecodeError m | ValueError m | TypeError m | AttributeError m
  | KeyError m | OtherException m => m
  end.

(** A call either returns a value or raises. *)
Inductive result (A : Type) : Type :=
| Returns (a : A)
| Raises (e : exn).
Arguments Returns {A} a.
Arguments Raises {A} e.

Definition bind {A B : Type} (r : result A) (k : A -> result B) : result B :=
  match r with
  | Returns a => k a
  | Raises e => Raises e
  end.

Notation "x <- r ;; k" := (bind r (fun x => k))
  (at level 61, r at next level, right associativity).

(** Truth value of a JSON value ([if not response]). *)
Definition truthy (v : json) : bool :=
  match v with
  | JNull => false
  | JBool b => b
  | JNum q => negb (Qnum q =? 0)%Z
  | JStr s => negb (s =? "")
  | JArr items => negb (Nat.eqb (length items) 0)
  | JObj members => negb (Nat.eqb (length members) 0)
  end.

Definition truthy_opt (v : option json) : bool :=
  match v with Some j => truthy j | None => false end.

(** Truth value of an optional string argument ([symbol: str = None]). *)
Definition truthy_str (s : option string) : bool :=
  match s with Some x => negb (x =? "") | None => false end.

Definition is_substring (needle hay : string) : bool :=
  match index 0 needle hay with Some _ => true | None => false end.

(** [key in data] for a string [key]: membership among the keys of a dict,
    among the items of a list, or as a substring of a string; the other JSON
    values are not containers and the test raises [TypeError]. *)
Definition py_in (key : string) (data : json) : result bool :=
  match data with
  | JObj members => Returns (existsb (fun kv => fst kv =? key) members)
  | JArr items =>
      Returns (existsb (fun v => match v with JStr s => s =? key | _ => false end) items)
  | JStr s => Returns (is_substring key s)
  | _ => Raises (TypeError "argument is not iterable")
  end.

(** [d[key]]: the first binding of [key]. *)
Fixpoint lookup {A : Type} (key : string) (members : list (string * A)) : option A :=
  match members with
  | [] => None
  | (k, v) :: rest => if k =? key then Some v else lookup key rest
  end.

(** ** The Fetcher: [fetch_intraday_data] *)

(** A [requests.Response], as far as the module reads it: the status code,
    the reason phrase and URL that [raise_for_status] puts in its message,
    and the outcome of [response.json()]. *)
Record Response : Type := mkResponse {
  status_code : Z;
  reason : string;
  url : string;
  json_body : result json
}.

(** What [requests.get] does: it returns a response or raises. *)
Inductive transport : Type :=
| Responded (r : Response)
| Failed (e : exn).

Definition string_of_Z (z : Z) : string :=
  NilZero.string_of_int (Z.to_int z).

(** [Response.raise_for_status] of [requests]: an [HTTPError] for a status
    code in 400..599, and nothing otherwise. *)
Definition raise_for_status (r : Response) : result unit :=
  let st := status_code r in
  if ((400 <=? st) && (st <? 500))%Z then
    Raises (HTTPError st
      (string_of_Z st ++ " Client Error: " ++ reason r ++ " for url: " ++ url r))
  else if ((500 <=? st) && (st <? 600))%Z then
    Raises (HTTPError st
      (string_of_Z st ++ " Server Error: " ++ reason r ++ " for url: " ++ url r))
  else Returns tt.

(** The value [fetch_intraday_data] returns, [(data, is_demo)], with the
    lines it printed on the way. *)
Record Fetched : Type := mkFetched {
  printed : list string;
  outcome : option json * bool
}.

(** The spec's [FetchOutcome]. *)
Definition Payload (data : json) : option json * bool := (Some data, false).
Definition Fallback : option json * bool := (None, true).

Section Fetcher.

(** [config.ALPHA_VANTAGE_BASE_URL], [config.ALPHA_VANTAGE_API_KEY] and the
    network behind [requests.get(url, params=..., timeout=...)]. *)
Variable ALPHA_VANTAGE_BASE_URL : string.
Variable ALPHA_VANTAGE_API_KEY : string.
Variable requests_get : string -> list (string * string) -> Z -> transport.

(** Lines 24-32: the query parameters and the one request, with its
    timeout of 10 seconds. *)
Definition intraday_params (symbol interval api_key : string) : list (string * string) :=
  [ ("function", "TIME_SERIES_INTRADAY");
    ("symbol", symbol);
    ("interval", interval);
    ("outputsize", "full");
    ("apikey", api_key) ].

Definition send (symbol interval api_key : string) : transport :=
  requests_get ALPHA_VANTAGE_BASE_URL (intraday_params symbol interval api_key) 10.

(** The body of the [try] block (lines 24-43). *)
Definition try_block (symbol interval api_key : string) : result json :=
  match send symbol interval api_key with
  | Failed e => Raises e
  | Responded response =>
      _ <- raise_for_status response ;;
      data <- json_body response ;;
      has_error <- py_in "Error Message" data ;;
      if has_error : bool then Raises (ValueError ("Invalid symbol: " ++ symbol))
      else
        has_note <- py_in "Note" data ;;
        if has_note : bool then
          Raises (ValueError "API rate limit reached. Using demo data instead.")
        else Returns data
  end.

(** The [except] clauses (lines 45-61), tried in order; an exception that
    none of them names would leave the function.  The first clause reads
    [e.response.status_code], which an [HTTPError] carries. *)
Definition handlers (symbol : string) (e : exn) : result Fetched :=
  if isinstance e cHTTPError then
    match e with
    | HTTPError status _ =>
        let line :=
          if (status =? 401)%Z then
            "Invalid API key. Using demo data for " ++ symbol ++ "."
          else if (status =? 429)%Z then
            "API rate limit exceeded. Using demo data for " ++ symbol ++ "."
          else
            "HTTP error occurred: " ++ str_exn e ++ ". Using demo data for "
              ++ symbol ++ "." in
        Returns (mkFetched [line] (None, true))
    | _ => Raises (AttributeError "'NoneType' object has no attribute 'status_code'")
    end
  else if isinstance e cConnectionError then
    Returns (mkFetched
      ["Network connection error. Using demo data for " ++ symbol ++ "."]
      (None, true))
  else if isinstance e cTimeout then
    Returns (mkFetched
      ["Request timed out. Using demo data for " ++ symbol ++ "."]
      (None, true))
  else if isinstance e cException then
    Returns (mkFetched
      ["Error occurred: " ++ str_exn e ++ ". Using demo data for " ++ symbol ++ "."]
      (None, true))
  else Raises e.

(** The default of the parameter [api_key]. *)
Definition key_or_default (api_key : option string) : string :=
  match api_key with Some k => k | None => ALPHA_VANTAGE_API_KEY end.

(** [fetch_intraday_data(symbol, interval, api_key=config.ALPHA_VANTAGE_API_KEY)] *)
Definition fetch_intraday_data (symbol interval : string) (api_key : option string)
  : result Fetched :=
  match try_block symbol interval (key_or_default api_key) with
  | Returns data => Returns (mkFetched [] (Some data, false))
  | Raises e => handlers symbol e
  end.

End Fetcher.

(** ** pandas, as far as [parse_time_series] uses it *)

(** An entry of a [DatetimeIndex]: nanoseconds since the epoch, or [NaT]
    ([None]).  [sort_index] puts [NaT] last. *)
Definition Timestamp : Type := option Z.

Definition ts_leb (a b : Timestamp) : bool :=
  match a, b with
  | Some x, Some y => (x <=? y)%Z
  | _, None => true
  | None, Some _ => false
  end.

Definition ts_ltb (a b : Timestamp) : bool := negb (ts_leb b a).

(** A cell of the frame built from the payload: the JSON value found there,
    or nothing (pandas fills a missing cell with NaN). *)
Definition cell : Type := option json.

(** The frame before its columns are converted: the number of columns and,
    for each index label, the cells of its row. *)
Record Frame : Type := mkFrame {
  width : nat;
  entries : list (string * list cell)
}.

Definition empty_frame : Frame := mkFrame 0 [].

(** The rows of the section as records; [None] when one of them is not a
    dict ([s.items()] raises [AttributeError] in [_from_nested_dict]). *)
Fixpoint as_records (rows : list (string * json))
  : option (list (string * list (string * json))) :=
  match rows with
  | [] => Some []
  | (k, JObj fields) :: rest =>
      match as_records rest with
      | Some recs => Some ((k, fields) :: recs)
      | None => None
      end
  | _ :: _ => None
  end.

Definition add_label (cols : list string) (label : string) : list string :=
  if existsb (fun c => c =? label) cols then cols else (cols ++ [label])%list.

(** The column labels of [DataFrame.from_dict(rows, orient='index')] for
    rows that are dicts: every field label, in order of first appearance. *)
Definition union_labels (recs : list (string * list (string * json))) : list string :=
  fold_left
    (fun cols rec => fold_left (fun cols f => add_label cols (fst f)) (snd rec) cols)
    recs [].

Definition has_fields (rec : string * list (string * json)) : bool :=
  negb (Nat.eqb (length (snd rec)) 0).

(** [_from_nested_dict] followed by the [DataFrame] constructor: cells are
    aligned by field label.  What becomes of a row with no field at all
    depends on the version of pandas, and the source pins none: pandas 2
    leaves the row out of the frame, pandas 3 keeps it as a row of missing
    cells.  [keep_empty_rows] says which of the two the library does. *)
Definition from_nested_dict (keep_empty_rows : bool)
    (recs : list (string * list (string * json))) : Frame :=
  let cols := union_labels recs in
  mkFrame (length cols)
    (map (fun rec => (fst rec, map (fun c => lookup c (snd rec)) cols))
         (if keep_empty_rows then recs else filter has_fields recs)).

(** [df.columns = names]: the lengths must agree. *)
Definition set_columns (df : Frame) (names : list string) : result Frame :=
  if Nat.eqb (width df) (length names) then Returns df
  else Raises (ValueError "Length mismatch").

Fixpoint traverse {A B : Type} (f : A -> option B) (l : list A) : option (list B) :=
  match l with
  | [] => Some []
  | x :: rest =>
      match f x with
      | None => None
      | Some y =>
          match traverse f rest with
          | None => None
          | Some ys => Some (y :: ys)
          end
      end
  end.

Section Normalizer.

(** The numeric values of a converted column (int64 or float64 in pandas),
    with NaN; [pd.to_numeric] on one cell and [pd.to_datetime] on one index
    label, [None] when they raise. *)
Variable Num : Type.
Variable nan : Num.
Variable to_numeric : json -> option Num.
Variable to_datetime : string -> option Timestamp.

(** The [DataFrame] constructor on rows that are not dicts
    ([DataFrame(list(data.values()), index=list(data.keys()))]). *)
Variable DataFrame_of_rows : list (string * json) -> result Frame.

(** Whether the installed pandas keeps rows that are empty dicts (see
    [from_nested_dict]). *)
Variable keeps_empty_rows : bool.

(** A row of the returned table: the index entry and the five columns. *)
Record Row : Type := mkRow {
  timestamp : Timestamp;
  open : Num;
  high : Num;
  low : Num;
  close : Num;
  volume : Num
}.

(** The table; [pd.DataFrame()] is the table without rows. *)
Definition DataFrame : Type := list Row.

(** [demo_data.generate_demo_stock_data], the external generator. *)
Variable generate_demo_stock_data : string -> string -> DataFrame.

(** [pd.DataFrame.from_dict(time_series, orient='index')] *)
Definition from_dict_index (time_series : json) : result Frame :=
  match time_series with
  | JObj [] => Returns empty_frame
  | JObj (((_, JObj _) :: _) as rows) =>
      match as_records rows with
      | Some recs => Returns (from_nested_dict keeps_empty_rows recs)
      | None => Raises (AttributeError "object has no attribute 'items'")
      end
  | JObj rows => DataFrame_of_rows rows
  | JArr [] => Returns empty_frame
  | JArr _ => Raises (AttributeError "'list' object has no attribute 'values'")
  | JStr s =>
      if s =? "" then Raises (ValueError "DataFrame constructor not properly called!")
      else Raises (AttributeError "'str' object has no attribute 'values'")
  | _ => Raises (TypeError "object has no len()")
  end.

(** [pd.to_datetime(df.index)] *)
Definition to_datetime_index (df : Frame) : result (list Timestamp) :=
  match traverse to_datetime (map fst (entries df)) with
  | Some idx => Returns idx
  | None => Raises (ValueError "Unknown datetime string format")
  end.

Definition cell_to_numeric (c : cell) : option Num :=
  match c with
  | None => Some nan
  | Some v => to_numeric v
  end.

(** [pd.to_numeric(df[name])] for the column at position [j]. *)
Definition to_numeric_column (df : Frame) (j : nat) : result (list Num) :=
  match traverse (fun row => cell_to_numeric (nth j (snd row) None)) (entries df) with
  | Some col => Returns col
  | None => Raises (ValueError "Unable to parse string")
  end.

(** The converted index and columns put back together, row by row. *)
Fixpoint assemble (idx : list Timestamp) (o h l c v : list Num) : DataFrame :=
  match idx, o, h, l, c, v with
  | t :: idx', x1 :: o', x2 :: h', x3 :: l', x4 :: c', x5 :: v' =>
      mkRow t x1 x2 x3 x4 x5 :: assemble idx' o' h' l' c' v'
  | _, _, _, _, _, _ => []
  end.

Fixpoint insert_row (r : Row) (sorted : DataFrame) : DataFrame :=
  match sorted with
  | [] => [r]
  | r' :: rest =>
      if ts_leb (timestamp r) (timestamp r') then r :: sorted
      else r' :: insert_row r rest
  end.

(** [df.sort_index()]: ascending by timestamp.  Rows with equal timestamps
    keep their order here; pandas leaves that order to its sort. *)
Fixpoint sort_index (df : DataFrame) : DataFrame :=
  match df with
  | [] => []
  | r :: rest => insert_row r (sort_index rest)
  end.

(** Lines 79-81 and 92-94: demo data when both [symbol] and [interval]
    are truthy, an empty frame otherwise. *)
Definition demo_or_empty (symbol interval : option string) : result DataFrame :=
  match symbol, interval with
  | Some s, Some i =>
      if truthy_str symbol && truthy_str interval
      then Returns (generate_demo_stock_data s i)
      else Returns []
  | _, _ => Returns []
  end.

(** Lines 84-88: the first key that starts with "Time Series". *)
Definition find_time_series_key (members : list (string * json)) : option string :=
  option_map fst (find (fun kv => prefix "Time Series" (fst kv)) members).

(** Lines 96-118. *)
Definition build_table (time_series : json) : result DataFrame :=
  df <- from_dict_index time_series ;;
  df <- set_columns df ["open"; "high"; "low"; "close"; "volume"] ;;
  idx <- to_datetime_index df ;;
  o <- to_numeric_column df 0 ;;
  h <- to_numeric_column df 1 ;;
  l <- to_numeric_column df 2 ;;
  c <- to_numeric_column df 3 ;;
  v <- to_numeric_column df 4 ;;
  Returns (sort_index (assemble idx o h l c v)).

(** [parse_time_series(response, symbol=None, interval=None)] *)
Definition parse_time_series (response : option json) (symbol interval : option string)
  : result DataFrame :=
  if negb (truthy_opt response) then demo_or_empty symbol interval
  else
    match response with
    | Some (JObj members) =>
        let time_series_key := find_time_series_key members in
        if negb (truthy_str time_series_key) then demo_or_empty symbol interval
        else
          match time_series_key with
          | Some key =>
              match lookup key members with
              | Some time_series => build_table time_series
              | None => Raises (KeyError key)
              end
          | None => demo_or_empty symbol interval
          end
    | _ => Raises (AttributeError "object has no attribute 'keys'")
    end.

(** The spec's [normalize(outcome, symbol?, interval?)]: the caller hands the
    first component of the fetched pair to [parse_time_series]. *)
Definition normalize (outcome : option json * bool) (symbol interval : option string)
  : result DataFrame :=
  parse_time_series (fst outcome) symbol interval.

End Normalizer.

Arguments mkRow {Num} _ _ _ _ _ _.
Arguments timestamp {Num} _.
Arguments open {Num} _.
Arguments high {Num} _.
Arguments low {Num} _.
Arguments close {Num} _.
Arguments volume {Num} _.
Arguments sort_index {Num} _.
Arguments insert_row {Num} _ _.
Arguments assemble {Num} _ _ _ _ _ _.

(** ** The generator as a procedure

    [demo_data.generate_demo_stock_data] is outside this module, and a call
    of it may read and change a state of its own (a random source, a
    clock).  Here that state is threaded through [parse_time_series]: the
    same code as above, with the one call of the generator made explicit as
    a step on the state. *)

Section GeneratorState.

Variable Num : Type.
Variable nan : Num.
Variable to_numeric : json -> option Num.
Variable to_datetime : string -> option Timestamp.
Variable DataFrame_of_rows : list (string * json) -> result Frame.
Variable keeps_empty_rows : bool.
Variable World : Type.
Variable generate_demo_stock_data : string -> string -> World -> DataFrame Num * World.

(** Lines 79-81 and 92-94. *)
Definition demo_or_empty_st (symbol interval : option string) (w : World)
  : result (DataFrame Num) * World :=
  match symbol, interval with
  | Some s, Some i =>
      if truthy_str symbol && truthy_str interval
      then let (table, w') := generate_demo_stock_data s i w in (Returns table, w')
      else (Returns [], w)
  | _, _ => (Returns [], w)
  end.

(** [parse_time_series(response, symbol, interval)], called in the state [w]. *)
Definition parse_time_series_st (response : option json)
    (symbol interval : option string) (w : World)
  : result (DataFrame Num) * World :=
  if negb (truthy_opt response) then demo_or_empty_st symbol interval w
  else
    match response with
    | Some (JObj members) =>
        let time_series_key := find_time_series_key members in
        if negb (truthy_str time_series_key) then demo_or_empty_st symbol interval w
        else
          match time_series_key with
          | Some key =>
              match lookup key members with
              | Some time_series =>
                  (build_table Num nan to_numeric to_datetime DataFrame_of_rows
                     keeps_empty_rows time_series, w)
              | None => (Raises (KeyError key), w)
              end
          | None => demo_or_empty_st symbol interval w
          end
    | _ => (Raises (AttributeError "object has no attribute 'keys'"), w)
    end.


End GeneratorState.

(** ** Shapes of payloads, named for the statements below *)

(** The section [parse_time_series] reads from a dict payload: the value
    under the first key that starts with "Time Series". *)
Definition time_series_section (members : list (string * json)) (section : json) : Prop :=
  exists key, find_time_series_key members = Some key
              /\ lookup key members = Some section.

(** A record with the given field labels and string values, and a section
    that maps each timestamp string to such a record. *)
Definition record_of (labels values : list string) : json :=
  JObj (combine labels (map JStr values)).

Definition section_of (labels : list string) (rows : list (string * list string)) : json :=
  JObj (map (fun r => (fst r, record_of labels (snd r))) rows).

(** Every row of a section is a dict with at least one field. *)
Definition rows_are_records (rows : list (string * json)) : Prop :=
  Forall (fun kv => exists fields, snd kv = JObj fields /\ fields <> []) rows.

(** The table row [row] holds the parses of the timestamp string and of the
    five value strings of [r], in the order open, high, low, close, volume. *)
Definition row_matches {Num : Type} (to_numeric : json -> option Num)
    (to_datetime : string -> option Timestamp)
    (r : string * list string) (row : Row Num) : Prop :=
  to_datetime (fst r) = Some (timestamp row)
  /\ to_numeric (JStr (nth 0 (snd r) "")) = Some (open row)
  /\ to_numeric (JStr (nth 1 (snd r) "")) = Some (high row)
  /\ to_numeric (JStr (nth 2 (snd r) "")) = Some (low row)
  /\ to_numeric (JStr (nth 3 (snd r) "")) = Some (close row)
  /\ to_numeric (JStr (nth 4 (snd r) "")) = Some (volume row).

(** The row that the parsers give for [r]: NaT and NaN stand where a parser
    has no value (never the case for the rows [row_matches] accepts). *)
Definition timestamp_or_NaT (to_datetime : string -> option Timestamp) (s : string)
  : Timestamp :=
  match to_datetime s with Some t => t | None => None end.

Definition numeric_or_nan {Num : Type} (nan : Num) (to_numeric : json -> option Num)
    (s : string) : Num :=
  match to_numeric (JStr s) with Some n => n | None => nan end.

Definition expected_row {Num : Type} (nan : Num) (to_numeric : json -> option Num)
    (to_datetime : string -> option Timestamp) (r : string * list string) : Row Num :=
  mkRow (timestamp_or_NaT to_datetime (fst r))
        (numeric_or_nan nan to_numeric (nth 0 (snd r) ""))
        (numeric_or_nan nan to_numeric (nth 1 (snd r) ""))
        (numeric_or_nan nan to_numeric (nth 2 (snd r) ""))
        (numeric_or_nan nan to_numeric (nth 3 (snd r) ""))
        (numeric_or_nan nan to_numeric (nth 4 (snd r) "")).

Definition ascending {Num : Type} (df : DataFrame Num) : Prop :=
  StronglySorted (fun a b => ts_leb (timestamp a) (timestamp b) = true) df.

Definition strictly_ascending {Num : Type} (df : DataFrame Num) : Prop :=
  StronglySorted (fun a b => ts_ltb (timestamp a) (timestamp b) = true) df.

(** ** A concrete instance

    Small stand-ins for the parsers of pandas, the generator and the
    network, used to run the model on concrete payloads. *)

Definition digit (c : ascii) : option Z :=
  let n := nat_of_ascii c in
  if (Nat.leb 48 n && Nat.leb n 57)%bool then Some (Z.of_nat (n - 48)) else None.

Fixpoint digits (s : string) (acc : Z) : option Z :=
  match s with
  | EmptyString => Some acc
  | String c rest =>
      match digit c with
      | Some d => digits rest (10 * acc + d)%Z
      | None => None
      end
  end.

(** Date-times written [YYYY-MM-DD HH:MM:SS], read as the number
    [YYYYMMDDHHMMSS], which orders them as the calendar does; the empty
    string is [NaT] and anything else raises. *)
Definition sample_to_datetime (s : string) : option Timestamp :=
  if s =? "" then Some None
  else if (Nat.eqb (String.length s) 19
           && (substring 4 1 s =? "-") && (substring 7 1 s =? "-")
           && (substring 10 1 s =? " ")
           && (substring 13 1 s =? ":") && (substring 16 1 s =? ":"))%bool
  then
    match digits (substring 0 4 s ++ substring 5 2 s ++ substring 8 2 s
                  ++ substring 11 2 s ++ substring 14 2 s ++ substring 17 2 s) 0 with
    | Some z => Some (Some z)
    | None => None
    end
  else None.

Fixpoint split_dot (s : string) : string * option string :=
  match s with
  | EmptyString => (EmptyString, None)
  | String c rest =>
      if (c =? ".")%char then (EmptyString, Some rest)
      else let (a, b) := split_dot rest in (String c a, b)
  end.

(** Numbers as rationals, NaN as [None]. *)
Definition SampleNum : Type := option Q.

(** Unsigned decimal strings such as [101.50]; the empty string and JSON
    [null] become NaN, a JSON number is kept, anything else raises. *)
Definition sample_to_numeric (v : json) : option SampleNum :=
  match v with
  | JNull => Some None
  | JNum q => Some (Some q)
  | JStr s =>
      if s =? "" then Some None
      else
        let (whole, frac) := split_dot s in
        if whole =? "" then None
        else
          match digits whole 0, frac with
          | Some w, None => Some (Some (Qmake w 1))
          | Some w, Some f =>
              match digits f 0 with
              | Some d =>
                  let scale := (10 ^ Z.of_nat (String.length f))%Z in
                  Some (Some (Qmake (w * scale + d) (Z.to_pos scale)))
              | None => None
              end
          | None, _ => None
          end
  | _ => None
  end.

(** The samples run as under pandas 2, which leaves out rows that are empty
    dicts. *)
Definition sample_keeps_empty_rows : bool := false.

Definition sample_DataFrame_of_rows (rows : list (string * json)) : result Frame :=
  Raises (ValueError "rows that are not records").

Definition sample_demo_row : Row SampleNum :=
  mkRow (Some 20240102093000%Z)
    (Some (Qmake 100 1)) (Some (Qmake 101 1)) (Some (Qmake 99 1))
    (Some (Qmake 100 1)) (Some (Qmake 1000 1)).

Definition sample_generate (symbol interval : string) : DataFrame SampleNum :=
  [sample_demo_row].

Definition sample_parse : option json -> option string -> option string
                          -> result (DataFrame SampleNum) :=
  parse_time_series SampleNum None sample_to_numeric sample_to_datetime
    sample_DataFrame_of_rows sample_keeps_empty_rows sample_generate.

Definition sample_labels : list string :=
  ["1. open"; "2. high"; "3. low"; "4. close"; "5. volume"].

Definition sample_rows : list (string * list string) :=
  [("2024-01-02 09:40:00", ["101.50"; "102.00"; "101.25"; "101.75"; "1200"]);
   ("2024-01-02 09:35:00", ["100.00"; "101.60"; "99.90"; "101.50"; "3400"]);
   ("2024-01-02 09:30:00", ["99.50"; "100.10"; "99.40"; "100.00"; "5600"])].

Definition meta_data : json :=
  JObj [("1. Information", JStr "Intraday (5min) open, high, low, close prices and volume");
        ("2. Symbol", JStr "IBM")].

(** A payload as the provider sends it. *)
Definition sample_payload : json :=
  JObj [("Meta Data", meta_data);
        ("Time Series (5min)", section_of sample_labels sample_rows)].

(** The time-series key is there and its section has no entry. *)
Definition empty_section_payload : json :=
  JObj [("Meta Data", meta_data); ("Time Series (5min)", JObj [])].

(** Nothing but the time-series key, with a section that has no entry. *)
Definition only_empty_section : json :=
  JObj [("Time Series (5min)", JObj [])].

(** Two rows of five numeric strings each, under different field labels. *)
Definition mixed_labels_payload : json :=
  JObj [("Time Series (5min)",
         JObj [("2024-01-02 09:35:00",
                record_of sample_labels ["100.00"; "101.60"; "99.90"; "101.50"; "3400"]);
               ("2024-01-02 09:30:00",
                record_of ["open"; "high"; "low"; "close"; "volume"]
                          ["99.50"; "100.10"; "99.40"; "100.00"; "5600"])])].

(** One row whose volume is not a number. *)
Definition bad_volume_rows : list (string * json) :=
  [("2024-01-02 09:35:00",
    record_of sample_labels ["100.00"; "101.60"; "99.90"; "101.50"; "3400"]);
   ("2024-01-02 09:30:00",
    record_of sample_labels ["99.50"; "100.10"; "99.40"; "100.00"; "n/a"])].

Definition bad_volume_payload : list (string * json) :=
  [("Meta Data", meta_data); ("Time Series (5min)", JObj bad_volume_rows)].

(** No time-series key at all. *)
Definition information_payload : list (string * json) :=
  [("Information", JStr "Please consider a premium plan.")].

(** A network that answers every request with the given response. *)
Definition answering (r : Response) : string -> list (string * string) -> Z -> transport :=
  fun _ _ _ => Responded r.

(** A network on which every request fails with the given exception. *)
Definition failing (e : exn) : string -> list (string * string) -> Z -> transport :=
  fun _ _ _ => Failed e.

Definition sample_fetch (net : string -> list (string * string) -> Z -> transport)
  : result Fetched :=
  fetch_intraday_data "https://www.alphavantage.co/query" "demo" net "IBM" "5min" None.

(** The spec's reading of a successful transport status: a 2xx code. *)
Definition success_status (st : Z) : bool := ((200 <=? st) && (st <? 300))%Z.

Definition response_401 : Response :=
  mkResponse 401 "Unauthorized" "https://www.alphavantage.co/query" (Returns sample_payload).

Definition response_300 : Response :=
  mkResponse 300 "Multiple Choices" "https://www.alphavantage.co/query"
    (Returns sample_payload).

Definition response_302 : Response :=
  mkResponse 302 "Found" "https://www.alphavantage.co/query"
    (Returns (JObj [("Information", JStr "moved")])).

Definition response_rate_limited : Response :=
  mkResponse 200 "OK" "https://www.alphavantage.co/query"
    (Returns (JObj [("Note", JStr "Thank you for using Alpha Vantage!")])).

Definition response_empty_body : Response :=
  mkResponse 200 "OK" "https://www.alphavantage.co/query" (Returns (JObj [])).

(** ** Further shapes and samples *)

(** JSON values that are not containers: [key in data] raises on them. *)
Definition is_scalar (data : json) : bool :=
  match data with
  | JNull | JBool _ | JNum _ => true
  | _ => false
  end.

Definition response_503 : Response :=
  mkResponse 503 "Service Unavailable" "https://www.alphavantage.co/query"
    (Raises (JSONDecodeError "Expecting value: line 1 column 1 (char 0)")).

Definition response_null_body : Response :=
  mkResponse 200 "OK" "https://www.alphavantage.co/query" (Returns JNull).

Definition response_list_body : Response :=
  mkResponse 200 "OK" "https://www.alphavantage.co/query"
    (Returns (JArr [JStr "IBM"; JStr "AAPL"])).

Definition response_both_markers : Response :=
  mkResponse 200 "OK" "https://www.alphavantage.co/query"
    (Returns (JObj [("Note", JStr "Thank you for using Alpha Vantage!");
                    ("Error Message", JStr "Invalid API call.")])).

Definition response_information : Response :=
  mkResponse 200 "OK" "https://www.alphavantage.co/query"
    (Returns (JObj information_payload)).

(** Records with four fields each. *)
Definition four_field_payload : list (string * json) :=
  [("Time Series (5min)",
    section_of ["1. open"; "2. high"; "3. low"; "4. close"]
      [("2024-01-02 09:35:00", ["100.00"; "101.60"; "99.90"; "101.50"]);
       ("2024-01-02 09:30:00", ["99.50"; "100.10"; "99.40"; "100.00"])])].

(** The sample section as JSON rows. *)
Definition sample_json_rows : list (string * json) :=
  map (fun r => (fst r, record_of sample_labels (snd r))) sample_rows.

(** One good row, and a row without fields whose key is not a date. *)
Definition skipped_row_payload : list (string * json) :=
  [("Time Series (5min)",
    JObj [("2024-01-02 09:30:00",
           record_of sample_labels ["99.50"; "100.10"; "99.40"; "100.00"; "5600"]);
          ("not a date", JObj [])])].




(** * Properties of the Fetcher *)

Ltac zbool :=
  repeat match goal with
  | H : (_ && _)%bool = true |- _ => apply andb_true_iff in H; destruct H
  | H : (_ && _)%bool = false |- _ => apply andb_false_iff in H; destruct H
  | H : (_ <=? _)%Z = true |- _ => apply Z.leb_le in H
  | H : (_ <=? _)%Z = false |- _ => apply Z.leb_gt in H
  | H : (_ <? _)%Z = true |- _ => apply Z.ltb_lt in H
  | H : (_ <? _)%Z = false |- _ => apply Z.ltb_ge in H
  end.

Lemma raise_for_status_error (r : Response) :
  (400 <= status_code r < 600)%Z ->
  exists msg, raise_for_status r = Raises (HTTPError (status_code r) msg).
Proof.
  intros H. unfold raise_for_status.
  destruct ((400 <=? status_code r) && (status_code r <? 500))%Z eqn:E1; [eauto|].
  destruct ((500 <=? status_code r) && (status_code r <? 600))%Z eqn:E2; [eauto|].
  exfalso. zbool; lia.
Qed.

Lemma raise_for_status_pass (r : Response) :
  ~ (400 <= status_code r < 600)%Z -> raise_for_status r = Returns tt.
Proof.
  intros H. unfold raise_for_status.
  destruct ((400 <=? status_code r) && (status_code r <? 500))%Z eqn:E1;
    [exfalso; zbool; lia|].
  destruct ((500 <=? status_code r) && (status_code r <? 600))%Z eqn:E2;
    [exfalso; zbool; lia|].
  reflexivity.
Qed.

Lemma raise_for_status_returns_inv (r : Response) (u : unit) :
  raise_for_status r = Returns u -> ~ (400 <= status_code r < 600)%Z.
Proof.
  intros H Hst. destruct (raise_for_status_error r Hst) as [msg E].
  congruence.
Qed.

Lemma success_status_passes (r : Response) :
  success_status (status_code r) = true -> raise_for_status r = Returns tt.
Proof.
  unfold success_status. intros H. apply raise_for_status_pass.
  zbool. lia.
Qed.

Section FetcherProperties.

Variable ALPHA_VANTAGE_BASE_URL : string.
Variable ALPHA_VANTAGE_API_KEY : string.
Variable requests_get : string -> list (string * string) -> Z -> transport.

Local Abbreviation fetch :=
  (fetch_intraday_data ALPHA_VANTAGE_BASE_URL ALPHA_VANTAGE_API_KEY requests_get).
Local Abbreviation request symbol interval api_key :=
  (send ALPHA_VANTAGE_BASE_URL requests_get symbol interval
     (key_or_default ALPHA_VANTAGE_API_KEY api_key)).
Local Abbreviation attempt symbol interval api_key :=
  (try_block ALPHA_VANTAGE_BASE_URL requests_get symbol interval
     (key_or_default ALPHA_VANTAGE_API_KEY api_key)).

(** Every [except] clause prints one line and returns [(None, True)]. *)
Lemma handlers_give_Fallback (symbol : string) (e : exn) :
  exists line, handlers symbol e = Returns (mkFetched [line] Fallback).
Proof.
  destruct e; cbn; eauto.
Qed.

Lemma fetch_after_raise (symbol interval : string) (api_key : option string) (e : exn) :
  attempt symbol interval api_key = Raises e ->
  exists line, fetch symbol interval api_key = Returns (mkFetched [line] Fallback).
Proof.
  intros H. unfold fetch_intraday_data. rewrite H.
  apply handlers_give_Fallback.
Qed.

Lemma fetch_after_return (symbol interval : string) (api_key : option string) (data : json) :
  attempt symbol interval api_key = Returns data ->
  fetch symbol interval api_key = Returns (mkFetched [] (Payload data)).
Proof.
  intros H. unfold fetch_intraday_data. rewrite H. reflexivity.
Qed.

(** What it takes for the [try] block to reach [return data, False]. *)
Lemma try_block_returns_inv (symbol interval key : string) (data : json) :
  try_block ALPHA_VANTAGE_BASE_URL requests_get symbol interval key = Returns data ->
  exists r,
    send ALPHA_VANTAGE_BASE_URL requests_get symbol interval key = Responded r
    /\ raise_for_status r = Returns tt
    /\ json_body r = Returns data
    /\ py_in "Error Message" data = Returns false
    /\ py_in "Note" data = Returns false.
Proof.
  unfold try_block. intros H.
  destruct (send _ _ _ _ _) as [r|e]; [|discriminate].
  exists r. split; [reflexivity|].
  destruct (raise_for_status r) as [[]|e] eqn:Hs; [|discriminate].
  cbn in H.
  destruct (json_body r) as [d|e] eqn:Hj; [|discriminate].
  cbn in H.
  destruct (py_in "Error Message" d) as [[|]|e] eqn:He; try discriminate.
  cbn in H.
  destruct (py_in "Note" d) as [[|]|e] eqn:Hn; try discriminate.
  cbn in H. inversion H; subst. auto.
Qed.

Lemma try_block_returns (symbol interval key : string) (r : Response) (data : json) :
  send ALPHA_VANTAGE_BASE_URL requests_get symbol interval key = Responded r ->
  raise_for_status r = Returns tt ->
  json_body r = Returns data ->
  py_in "Error Message" data = Returns false ->
  py_in "Note" data = Returns false ->
  try_block ALPHA_VANTAGE_BASE_URL requests_get symbol interval key = Returns data.
Proof.
  intros Hs Hr Hj He Hn. unfold try_block.
  rewrite Hs, Hr. cbn. rewrite Hj. cbn. rewrite He. cbn. rewrite Hn. reflexivity.
Qed.

(** A dict body with one of the two marker keys makes the [try] block
    raise, unless something raised before the markers were looked at. *)
Lemma try_block_marker_raises (symbol interval key : string) (r : Response)
      (members : list (string * json)) :
  send ALPHA_VANTAGE_BASE_URL requests_get symbol interval key = Responded r ->
  json_body r = Returns (JObj members) ->
  In "Error Message" (map fst members) \/ In "Note" (map fst members) ->
  exists e, try_block ALPHA_VANTAGE_BASE_URL requests_get symbol interval key = Raises e.
Proof.
  intros Hs Hj Hm. unfold try_block. rewrite Hs.
  destruct (raise_for_status r) as [[]|e]; [|cbn; eauto].
  cbn. rewrite Hj. cbn.
  destruct (existsb (fun kv => fst kv =? "Error Message") members) eqn:He; [eauto|].
  cbn.
  destruct (existsb (fun kv => fst kv =? "Note") members) eqn:Hn; [eauto|].
  exfalso.
  assert (Hno : forall k, existsb (fun kv : string * json => fst kv =? k) members = false ->
                          ~ In k (map fst members)).
  { intros k Hk Hin. apply in_map_iff in Hin. destruct Hin as [kv [E Hin]].
    assert (Ht : existsb (fun kv : string * json => fst kv =? k) members = true).
    { apply existsb_exists. exists kv. split; [exact Hin|]. rewrite E. apply String.eqb_refl. }
    congruence. }
  destruct Hm as [Hm|Hm]; [exact (Hno _ He Hm) | exact (Hno _ Hn Hm)].
Qed.

(** C1. For every symbol, interval and credential, and whatever the network
    does, [fetch_intraday_data] returns: its value is [Fallback] or
    [Payload data], and no exception leaves the call. *)
Theorem fetch_returns_Payload_or_Fallback :
  forall (symbol interval : string) (api_key : option string),
    exists f, fetch symbol interval api_key = Returns f
              /\ (outcome f = Fallback \/ exists data, outcome f = Payload data).
Proof.
  intros symbol interval api_key.
  destruct (attempt symbol interval api_key) as [data|e] eqn:H.
  - exists (mkFetched [] (Payload data)). split.
    + apply fetch_after_return. exact H.
    + right. exists data. reflexivity.
  - destruct (fetch_after_raise _ _ _ _ H) as [line Hf].
    exists (mkFetched [line] Fallback). split; [exact Hf | left; reflexivity].
Qed.

(** C6, as amended. If the response has a status code in 400..599 (401 and
    429 among them), or the request itself raises (a connection failure and
    a timeout among the cases), [fetch_intraday_data] prints one diagnostic
    line and returns [Fallback]: the status only chooses the line. *)
Theorem error_status_or_failed_request_gives_Fallback :
  forall (symbol interval : string) (api_key : option string),
    (forall r, request symbol interval api_key = Responded r ->
               (400 <= status_code r < 600)%Z ->
               exists line, fetch symbol interval api_key
                            = Returns (mkFetched [line] Fallback))
    /\ (forall e, request symbol interval api_key = Failed e ->
                  exists line, fetch symbol interval api_key
                               = Returns (mkFetched [line] Fallback)).
Proof.
  intros symbol interval api_key. split.
  - intros r Hs Hst.
    destruct (raise_for_status_error r Hst) as [msg Hr].
    apply fetch_after_raise with (e := HTTPError (status_code r) msg).
    unfold try_block. rewrite Hs, Hr. reflexivity.
  - intros e Hs.
    apply fetch_after_raise with (e := e).
    unfold try_block. rewrite Hs. reflexivity.
Qed.

(** C7, as amended. A dict body with a key "Error Message" or "Note" gives
    [Fallback] whatever the status code; and [Payload data] is returned only
    when the status code is outside 400..599, the body parses to [data], and
    neither marker is in [data]. *)
Theorem marker_gives_Fallback_and_Payload_needs_clean_body :
  forall (symbol interval : string) (api_key : option string),
    (forall r members,
        request symbol interval api_key = Responded r ->
        json_body r = Returns (JObj members) ->
        In "Error Message" (map fst members) \/ In "Note" (map fst members) ->
        exists line, fetch symbol interval api_key
                     = Returns (mkFetched [line] Fallback))
    /\ (forall f data,
           fetch symbol interval api_key = Returns f ->
           outcome f = Payload data ->
           exists r, request symbol interval api_key = Responded r
                     /\ ~ (400 <= status_code r < 600)%Z
                     /\ json_body r = Returns data
                     /\ py_in "Error Message" data = Returns false
                     /\ py_in "Note" data = Returns false).
Proof.
  intros symbol interval api_key. split.
  - intros r members Hs Hj Hm.
    destruct (try_block_marker_raises _ _ _ _ _ Hs Hj Hm) as [e He].
    exact (fetch_after_raise _ _ _ _ He).
  - intros f data Hf Ho.
    destruct (attempt symbol interval api_key) as [d|e] eqn:H.
    + rewrite (fetch_after_return _ _ _ _ H) in Hf.
      inversion Hf; subst f. cbn in Ho. inversion Ho; subst d.
      destruct (try_block_returns_inv _ _ _ _ H) as [r [Hs [Hr [Hj [He Hn]]]]].
      exists r. repeat split; auto.
      exact (raise_for_status_returns_inv _ _ Hr).
    + destruct (fetch_after_raise _ _ _ _ H) as [line Hl].
      rewrite Hl in Hf. inversion Hf; subst f. cbn in Ho. discriminate.
Qed.

End FetcherProperties.

(** * Properties of the Normalizer *)

(** ** The order on timestamps *)

Lemma ts_leb_total (a b : Timestamp) : ts_leb a b = true \/ ts_leb b a = true.
Proof.
  destruct a as [x|], b as [y|]; cbn; auto.
  destruct (Z.leb_spec x y); [left; reflexivity|].
  right. apply Z.leb_le. lia.
Qed.

Lemma ts_leb_trans (a b c : Timestamp) :
  ts_leb a b = true -> ts_leb b c = true -> ts_leb a c = true.
Proof.
  destruct a as [x|], b as [y|], c as [z|]; cbn; intros H1 H2;
    try reflexivity; try discriminate.
  apply Z.leb_le in H1, H2. apply Z.leb_le. lia.
Qed.

Lemma ts_leb_antisym (a b : Timestamp) :
  ts_leb a b = true -> ts_leb b a = true -> a = b.
Proof.
  destruct a as [x|], b as [y|]; cbn; intros H1 H2;
    try reflexivity; try discriminate.
  apply Z.leb_le in H1, H2. f_equal. lia.
Qed.

(** ** Lists: [traverse], [lookup], column labels *)

Lemma traverse_map {A B : Type} (f : A -> option B) (g : A -> B) (l : list A) :
  (forall x, In x l -> f x = Some (g x)) -> traverse f l = Some (map g l).
Proof.
  induction l as [|x l IH]; intros H; cbn; [reflexivity|].
  rewrite (H x (or_introl eq_refl)).
  rewrite IH; [reflexivity|]. intros y Hy. apply H. right. exact Hy.
Qed.

Lemma traverse_Some_In {A B : Type} (f : A -> option B) (l : list A) (ys : list B) :
  traverse f l = Some ys -> forall x, In x l -> exists y, f x = Some y.
Proof.
  revert ys. induction l as [|a l IH]; intros ys H x Hx; [contradiction|].
  cbn in H. destruct (f a) as [y|] eqn:Ha; [|discriminate].
  destruct (traverse f l) as [ys'|] eqn:Hl; [|discriminate].
  destruct Hx as [->|Hx]; [eauto|]. exact (IH ys' eq_refl x Hx).
Qed.

Lemma traverse_Some_map {A B : Type} (f : A -> option B) (d : B) (l : list A)
      (ys : list B) :
  traverse f l = Some ys ->
  ys = map (fun x => match f x with Some y => y | None => d end) l.
Proof.
  revert ys. induction l as [|a l IH]; intros ys H; cbn in H.
  - inversion H. reflexivity.
  - destruct (f a) as [y|] eqn:Ha; [|discriminate].
    destruct (traverse f l) as [ys'|] eqn:Hl; [|discriminate].
    inversion H; subst ys. cbn. rewrite Ha. f_equal. apply IH. reflexivity.
Qed.

Lemma lookup_In {A : Type} (key : string) (members : list (string * A)) (v : A) :
  lookup key members = Some v -> In key (map fst members).
Proof.
  induction members as [|[k w] rest IH]; cbn; [discriminate|].
  destruct (k =? key) eqn:E; intros H.
  - left. apply String.eqb_eq. exact E.
  - right. apply IH. exact H.
Qed.

Lemma lookup_combine (labels : list string) :
  forall (A : Type) (vals : list A),
    NoDup labels -> length labels = length vals ->
    map (fun c => lookup c (combine labels vals)) labels = map Some vals.
Proof.
  induction labels as [|c labels IH]; intros A vals Hnd Hlen;
    destruct vals as [|v vals]; try discriminate; [reflexivity|].
  cbn. rewrite String.eqb_refl. f_equal.
  inversion Hnd as [|? ? Hnotin Hnd']; subst.
  rewrite <- (IH A vals Hnd'); [|cbn in Hlen; lia].
  apply map_ext_in. intros c' Hc'.
  destruct (c =? c') eqn:E; [|reflexivity].
  apply String.eqb_eq in E. subst c'. contradiction.
Qed.

Lemma add_label_old (cols : list string) (label : string) :
  In label cols -> add_label cols label = cols.
Proof.
  intros H. unfold add_label.
  assert (E : existsb (fun c => c =? label) cols = true).
  { apply existsb_exists. exists label. split; [exact H | apply String.eqb_refl]. }
  rewrite E. reflexivity.
Qed.

Lemma add_label_new (cols : list string) (label : string) :
  ~ In label cols -> add_label cols label = (cols ++ [label])%list.
Proof.
  intros H. unfold add_label.
  destruct (existsb (fun c => c =? label) cols) eqn:E; [|reflexivity].
  apply existsb_exists in E. destruct E as [c [Hc Heq]].
  apply String.eqb_eq in Heq. subst c. contradiction.
Qed.

Lemma add_label_incl (cols : list string) (label c : string) :
  In c cols -> In c (add_label cols label).
Proof.
  intros H. unfold add_label.
  destruct (existsb _ cols); [exact H|]. apply in_or_app. left. exact H.
Qed.

Lemma add_label_In (cols : list string) (label : string) :
  In label (add_label cols label).
Proof.
  destruct (in_dec string_dec label cols) as [H|H].
  - rewrite add_label_old; assumption.
  - rewrite add_label_new by assumption. apply in_or_app. right. left. reflexivity.
Qed.

(** The labels of one record added to the columns seen so far. *)
Lemma add_fields_incl (fields : list (string * json)) :
  forall cols c, In c cols ->
    In c (fold_left (fun cols f => add_label cols (fst f)) fields cols).
Proof.
  induction fields as [|f fields IH]; intros cols c H; cbn; [exact H|].
  apply IH. apply add_label_incl. exact H.
Qed.

Lemma add_fields_In (fields : list (string * json)) :
  forall cols c, In c (map fst fields) ->
    In c (fold_left (fun cols f => add_label cols (fst f)) fields cols).
Proof.
  induction fields as [|f fields IH]; intros cols c H; cbn in *; [contradiction|].
  destruct H as [<-|H].
  - apply add_fields_incl. apply add_label_In.
  - apply IH. exact H.
Qed.

Lemma add_fields_old (fields : list (string * json)) :
  forall cols, incl (map fst fields) cols ->
    fold_left (fun cols f => add_label cols (fst f)) fields cols = cols.
Proof.
  induction fields as [|f fields IH]; intros cols H; cbn; [reflexivity|].
  rewrite add_label_old by (apply H; left; reflexivity).
  apply IH. intros c Hc. apply H. right. exact Hc.
Qed.

Lemma add_fields_new (fields : list (string * json)) :
  forall cols, NoDup (cols ++ map fst fields) ->
    fold_left (fun cols f => add_label cols (fst f)) fields cols
    = (cols ++ map fst fields)%list.
Proof.
  induction fields as [|f fields IH]; intros cols H; cbn.
  - rewrite app_nil_r. reflexivity.
  - cbn in H.
    assert (Hn : ~ In (fst f) cols).
    { intros Hin. apply NoDup_remove_2 in H. apply H. apply in_or_app. left. exact Hin. }
    rewrite add_label_new by exact Hn.
    rewrite IH.
    + rewrite <- app_assoc. reflexivity.
    + rewrite <- app_assoc. exact H.
Qed.

Lemma union_labels_In (recs : list (string * list (string * json)))
      (rec : string * list (string * json)) (c : string) :
  In rec recs -> In c (map fst (snd rec)) -> In c (union_labels recs).
Proof.
  unfold union_labels. generalize (@nil string) as cols.
  induction recs as [|r recs IH]; intros cols Hrec Hc; [contradiction|].
  cbn. destruct Hrec as [->|Hrec].
  - clear IH.
    assert (H : In c (fold_left (fun cols f => add_label cols (fst f)) (snd rec) cols))
      by (apply add_fields_In; exact Hc).
    revert H. generalize (fold_left (fun cols f => add_label cols (fst f)) (snd rec) cols).
    induction recs as [|r recs IH]; intros cols' H; cbn; [exact H|].
    apply IH. apply add_fields_incl. exact H.
  - apply IH; assumption.
Qed.

Lemma union_labels_uniform (labels : list string)
      (recs : list (string * list (string * json))) :
  NoDup labels -> recs <> [] ->
  (forall rec, In rec recs -> map fst (snd rec) = labels) ->
  union_labels recs = labels.
Proof.
  intros Hnd Hne Hall. unfold union_labels.
  destruct recs as [|r recs]; [congruence|]. cbn.
  rewrite add_fields_new;
    [|cbn; rewrite (Hall r (or_introl eq_refl)); exact Hnd].
  cbn. rewrite (Hall r (or_introl eq_refl)).
  assert (Hrest : forall rec, In rec recs -> map fst (snd rec) = labels)
    by (intros rec Hin; apply Hall; right; exact Hin).
  clear Hall Hne. induction recs as [|r' recs IH]; cbn; [reflexivity|].
  rewrite add_fields_old.
  - apply IH. intros rec Hin. apply Hrest. right. exact Hin.
  - rewrite (Hrest r' (or_introl eq_refl)). apply incl_refl.
Qed.

Lemma filter_all {A : Type} (f : A -> bool) (l : list A) :
  (forall x, In x l -> f x = true) -> filter f l = l.
Proof.
  induction l as [|x l IH]; intros H; cbn; [reflexivity|].
  rewrite (H x (or_introl eq_refl)). f_equal.
  apply IH. intros y Hy. apply H. right. exact Hy.
Qed.

Lemma kept_all (keep_empty_rows : bool) (recs : list (string * list (string * json))) :
  (forall rec, In rec recs -> has_fields rec = true) ->
  (if keep_empty_rows then recs else filter has_fields recs) = recs.
Proof.
  intros H. destruct keep_empty_rows; [reflexivity | apply filter_all; exact H].
Qed.

Lemma as_records_of_records (rows : list (string * json)) :
  Forall (fun kv => exists fields, snd kv = JObj fields) rows ->
  exists recs, as_records rows = Some recs
               /\ rows = map (fun rec => (fst rec, JObj (snd rec))) recs.
Proof.
  induction 1 as [|[k v] rows [fields Hv] _ [recs [Hrecs Hrows]]].
  - exists []. split; reflexivity.
  - cbn in Hv. subst v. exists ((k, fields) :: recs). cbn.
    rewrite Hrecs. split; [reflexivity|]. rewrite Hrows at 1. reflexivity.
Qed.

(** ** [sort_index] *)

Section Sorting.

Variable Num : Type.

Lemma insert_row_perm (r : Row Num) (l : DataFrame Num) :
  Permutation (insert_row r l) (r :: l).
Proof.
  induction l as [|a l IH]; cbn; [apply Permutation_refl|].
  destruct (ts_leb (timestamp r) (timestamp a)); [apply Permutation_refl|].
  apply perm_trans with (a :: r :: l); [|apply perm_swap].
  apply perm_skip. exact IH.
Qed.

Lemma sort_index_perm (l : DataFrame Num) : Permutation (sort_index l) l.
Proof.
  induction l as [|a l IH]; cbn; [apply perm_nil|].
  apply perm_trans with (a :: sort_index l); [apply insert_row_perm|].
  apply perm_skip. exact IH.
Qed.

Lemma insert_row_ascending (r : Row Num) (l : DataFrame Num) :
  ascending l -> ascending (insert_row r l).
Proof.
  unfold ascending. induction l as [|a l IH]; intros H; cbn.
  - constructor; constructor.
  - inversion H as [|? ? Hl Ha]; subst.
    destruct (ts_leb (timestamp r) (timestamp a)) eqn:E.
    + constructor; [exact H|]. constructor; [exact E|].
      eapply Forall_impl; [|exact Ha]. cbn. intros b Hb.
      eapply ts_leb_trans; eassumption.
    + constructor; [apply IH; exact Hl|].
      apply (Permutation_Forall (Permutation_sym (insert_row_perm r l))).
      constructor; [|exact Ha].
      destruct (ts_leb_total (timestamp a) (timestamp r)) as [H'|H'];
        [exact H' | congruence].
Qed.

Lemma sort_index_ascending (l : DataFrame Num) : ascending (sort_index l).
Proof.
  induction l as [|a l IH]; cbn; [constructor|].
  apply insert_row_ascending. exact IH.
Qed.

(** With pairwise distinct timestamps, ascending is strictly ascending. *)
Lemma ascending_strict (l : DataFrame Num) :
  ascending l -> NoDup (map timestamp l) -> strictly_ascending l.
Proof.
  unfold ascending, strictly_ascending.
  induction 1 as [|a l Hl IH Ha]; intros Hnd; [constructor|].
  cbn in Hnd. inversion Hnd as [|? ? Hnotin Hnd']; subst.
  constructor; [apply IH; exact Hnd'|].
  apply Forall_forall. intros b Hb.
  rewrite Forall_forall in Ha. specialize (Ha b Hb). cbn in Ha.
  unfold ts_ltb. destruct (ts_leb (timestamp b) (timestamp a)) eqn:E; [|reflexivity].
  exfalso. apply Hnotin.
  rewrite (ts_leb_antisym _ _ Ha E). apply in_map. exact Hb.
Qed.

Lemma assemble_map {A : Type} (f0 : A -> Timestamp) (f1 f2 f3 f4 f5 : A -> Num)
      (l : list A) :
  assemble (map f0 l) (map f1 l) (map f2 l) (map f3 l) (map f4 l) (map f5 l)
  = map (fun x => mkRow (f0 x) (f1 x) (f2 x) (f3 x) (f4 x) (f5 x)) l.
Proof.
  induction l as [|x l IH]; cbn; [reflexivity|]. rewrite IH. reflexivity.
Qed.

End Sorting.

(** ** [parse_time_series] *)

Lemma find_time_series_key_none (members : list (string * json)) :
  (forall k, In k (map fst members) -> prefix "Time Series" k = false) ->
  find_time_series_key members = None.
Proof.
  unfold find_time_series_key.
  induction members as [|[k v] rest IH]; intros H; cbn; [reflexivity|].
  rewrite (H k (or_introl eq_refl)). apply IH.
  intros k' Hk'. apply H. right. exact Hk'.
Qed.

Lemma find_time_series_key_some (members : list (string * json)) (key : string) :
  find_time_series_key members = Some key ->
  members <> [] /\ prefix "Time Series" key = true.
Proof.
  unfold find_time_series_key. intros H.
  destruct (find _ members) as [[k v]|] eqn:E; [|discriminate].
  cbn in H. inversion H; subst k.
  apply find_some in E. destruct E as [Hin Hp]. split; [|exact Hp].
  intros ->. contradiction.
Qed.

Lemma prefixed_key_truthy (key : string) :
  prefix "Time Series" key = true -> truthy_str (Some key) = true.
Proof.
  destruct key; [discriminate | reflexivity].
Qed.

Lemma nonempty_truthy (members : list (string * json)) :
  members <> [] -> truthy_opt (Some (JObj members)) = true.
Proof.
  destruct members; [congruence | reflexivity].
Qed.

Section NormalizerProperties.

Variable Num : Type.
Variable nan : Num.
Variable to_numeric : json -> option Num.
Variable to_datetime : string -> option Timestamp.
Variable DataFrame_of_rows : list (string * json) -> result Frame.
Variable keeps_empty_rows : bool.
Variable generate_demo_stock_data : string -> string -> DataFrame Num.

Local Abbreviation parse :=
  (parse_time_series Num nan to_numeric to_datetime DataFrame_of_rows keeps_empty_rows
     generate_demo_stock_data).
Local Abbreviation norm :=
  (normalize Num nan to_numeric to_datetime DataFrame_of_rows keeps_empty_rows
     generate_demo_stock_data).
Local Abbreviation build :=
  (build_table Num nan to_numeric to_datetime DataFrame_of_rows keeps_empty_rows).
Local Abbreviation demo := (demo_or_empty Num generate_demo_stock_data).
Local Abbreviation column := (to_numeric_column Num nan to_numeric).

(** A dict payload with a time-series section goes to lines 96-118. *)
Lemma parse_reads_section (members : list (string * json)) (section : json)
      (symbol interval : option string) :
  time_series_section members section ->
  parse (Some (JObj members)) symbol interval = build section.
Proof.
  intros [key [Hkey Hsec]].
  destruct (find_time_series_key_some _ _ Hkey) as [Hne Hp].
  unfold parse_time_series.
  rewrite (nonempty_truthy _ Hne). cbn [negb].
  rewrite Hkey, (prefixed_key_truthy _ Hp). cbn [negb].
  rewrite Hsec. reflexivity.
Qed.

(** A dict payload without such a key goes to lines 92-94. *)
Lemma parse_without_section (members : list (string * json))
      (symbol interval : option string) :
  members <> [] ->
  find_time_series_key members = None ->
  parse (Some (JObj members)) symbol interval = demo symbol interval.
Proof.
  intros Hne Hkey. unfold parse_time_series.
  rewrite (nonempty_truthy _ Hne). cbn [negb].
  rewrite Hkey. reflexivity.
Qed.

Lemma parse_falsy (response : option json) (symbol interval : option string) :
  truthy_opt response = false ->
  parse response symbol interval = demo symbol interval.
Proof.
  intros H. unfold parse_time_series. rewrite H. reflexivity.
Qed.

(** What it takes for lines 96-118 to return a table. *)
Lemma build_table_returns_inv (section : json) (table : DataFrame Num) :
  build section = Returns table ->
  exists df idx o h l c v,
    from_dict_index DataFrame_of_rows keeps_empty_rows section = Returns df
    /\ width df = 5
    /\ to_datetime_index to_datetime df = Returns idx
    /\ column df 0 = Returns o /\ column df 1 = Returns h
    /\ column df 2 = Returns l /\ column df 3 = Returns c
    /\ column df 4 = Returns v
    /\ table = sort_index (assemble idx o h l c v).
Proof.
  unfold build_table. intros H.
  destruct (from_dict_index DataFrame_of_rows keeps_empty_rows section) as [df|e]; [|discriminate].
  cbn in H. unfold set_columns in H.
  destruct (Nat.eqb (width df) _) eqn:Hw; [|discriminate].
  apply Nat.eqb_eq in Hw. cbn in Hw, H.
  destruct (to_datetime_index to_datetime df) as [idx|e] eqn:Hi; [|discriminate].
  cbn in H.
  destruct (column df 0) as [o|e] eqn:H0; [|discriminate]. cbn in H.
  destruct (column df 1) as [h|e] eqn:H1; [|discriminate]. cbn in H.
  destruct (column df 2) as [l|e] eqn:H2; [|discriminate]. cbn in H.
  destruct (column df 3) as [c|e] eqn:H3; [|discriminate]. cbn in H.
  destruct (column df 4) as [v|e] eqn:H4; [|discriminate]. cbn in H.
  inversion H; subst table. exists df, idx, o, h, l, c, v. repeat split; auto.
Qed.

(** A section whose rows are all dicts is built by [from_nested_dict]. *)
Lemma from_dict_index_records (rows : list (string * json)) :
  rows <> [] ->
  Forall (fun kv => exists fields, snd kv = JObj fields) rows ->
  exists recs,
    rows = map (fun rec => (fst rec, JObj (snd rec))) recs
    /\ from_dict_index DataFrame_of_rows keeps_empty_rows (JObj rows) = Returns (from_nested_dict keeps_empty_rows recs).
Proof.
  intros Hne Hall.
  destruct (as_records_of_records rows Hall) as [recs [Hrecs Hrows]].
  exists recs. split; [exact Hrows|].
  destruct rows as [|[k v] rest]; [congruence|].
  inversion Hall as [|? ? [fields Hv] _]; subst. cbn in Hv. subst v.
  cbn [from_dict_index]. rewrite Hrecs. reflexivity.
Qed.

(** An empty section: the frame has no column, and naming five raises. *)
Lemma build_table_empty_section :
  build (JObj []) = Raises (ValueError "Length mismatch").
Proof. reflexivity. Qed.

(** ** Sections with uniform records *)

Lemma traverse_comp {A B C : Type} (f : B -> option C) (g : A -> B) (l : list A) :
  traverse f (map g l) = traverse (fun x => f (g x)) l.
Proof.
  induction l as [|x l IH]; cbn; [reflexivity|]. rewrite IH. reflexivity.
Qed.

Lemma as_records_map (recs : list (string * list (string * json))) :
  as_records (map (fun rec => (fst rec, JObj (snd rec))) recs) = Some recs.
Proof.
  induction recs as [|[k fields] recs IH]; cbn; [reflexivity|].
  rewrite IH. reflexivity.
Qed.

Lemma map_fst_combine {A B : Type} (l : list A) :
  forall l' : list B, length l = length l' -> map fst (combine l l') = l.
Proof.
  induction l as [|x l IH]; intros [|y l'] H; try discriminate; [reflexivity|].
  cbn. f_equal. apply IH. cbn in H. lia.
Qed.

(** The frame of a section whose records all carry the same five labels:
    five columns, and in each row the five strings in the order of the
    labels. *)
Lemma uniform_section_frame (labels : list string) (rows : list (string * list string)) :
  rows <> [] ->
  length labels = 5 -> NoDup labels ->
  (forall r, In r rows -> length (snd r) = 5) ->
  from_dict_index DataFrame_of_rows keeps_empty_rows (section_of labels rows)
  = Returns (mkFrame 5
      (map (fun r => (fst r, map (fun s => Some (JStr s)) (snd r))) rows)).
Proof.
  intros Hne Hlen Hnd Hrows.
  set (recs := map (fun r => (fst r, combine labels (map JStr (snd r)))) rows).
  assert (Hsec : section_of labels rows
                 = JObj (map (fun rec => (fst rec, JObj (snd rec))) recs)).
  { unfold section_of, record_of, recs. rewrite map_map. reflexivity. }
  assert (Hlabels : forall rec, In rec recs -> map fst (snd rec) = labels).
  { intros rec Hin. apply in_map_iff in Hin. destruct Hin as [r [<- Hr]]. cbn.
    apply map_fst_combine. rewrite length_map, (Hrows r Hr). exact Hlen. }
  assert (Hrecs : recs <> []).
  { unfold recs. destruct rows; [congruence | discriminate]. }
  rewrite Hsec.
  assert (Hfrom : from_dict_index DataFrame_of_rows keeps_empty_rows
                    (JObj (map (fun rec => (fst rec, JObj (snd rec))) recs))
                  = Returns (from_nested_dict keeps_empty_rows recs)).
  { pose proof (as_records_map recs) as Has.
    destruct recs as [|[k fields] recs']; [congruence|].
    cbn [map fst snd from_dict_index] in *. rewrite Has. reflexivity. }
  rewrite Hfrom. f_equal. unfold from_nested_dict.
  rewrite (union_labels_uniform labels recs Hnd Hrecs Hlabels), Hlen.
  f_equal.
  rewrite kept_all.
  - unfold recs. rewrite map_map. apply map_ext_in. intros r Hr. cbn. f_equal.
    rewrite lookup_combine;
      [apply map_map | exact Hnd | rewrite length_map, (Hrows r Hr); exact Hlen].
  - intros rec Hin. unfold has_fields.
    pose proof (Hlabels rec Hin) as Hl.
    assert (Hn : length (snd rec) = 5)
      by (rewrite <- (length_map fst), Hl; exact Hlen).
    rewrite Hn. reflexivity.
Qed.

Lemma uniform_index (rows : list (string * list string)) :
  to_datetime_index to_datetime
    (mkFrame 5 (map (fun r => (fst r, map (fun s => Some (JStr s)) (snd r))) rows))
  = match traverse to_datetime (map fst rows) with
    | Some idx => Returns idx
    | None => Raises (ValueError "Unknown datetime string format")
    end.
Proof.
  unfold to_datetime_index. cbn [entries]. rewrite map_map. reflexivity.
Qed.

Lemma uniform_column (rows : list (string * list string)) (j : nat) :
  j < 5 ->
  (forall r, In r rows -> length (snd r) = 5) ->
  (forall r s, In r rows -> In s (snd r) -> exists n, to_numeric (JStr s) = Some n) ->
  column (mkFrame 5 (map (fun r => (fst r, map (fun s => Some (JStr s)) (snd r))) rows)) j
  = Returns (map (fun r => numeric_or_nan nan to_numeric (nth j (snd r) "")) rows).
Proof.
  intros Hj Hrows Hnum. unfold to_numeric_column. cbn [entries].
  rewrite traverse_comp.
  rewrite (traverse_map _
            (fun r => numeric_or_nan nan to_numeric (nth j (snd r) ""))); [reflexivity|].
  intros r Hr. cbn [snd].
  assert (Hlt : j < length (snd r)) by (rewrite (Hrows r Hr); exact Hj).
  rewrite (nth_indep _ None (Some (JStr "")))
    by (rewrite length_map; exact Hlt).
  rewrite (map_nth (fun s => Some (JStr s))). cbn.
  destruct (Hnum r (nth j (snd r) "") Hr (nth_In _ _ Hlt)) as [n Hn].
  unfold numeric_or_nan. rewrite Hn. reflexivity.
Qed.

Lemma matches_expected (rows : list (string * list string)) :
  (forall r, In r rows ->
     row_matches to_numeric to_datetime r (expected_row nan to_numeric to_datetime r)) ->
  Forall2 (row_matches to_numeric to_datetime) rows
          (map (expected_row nan to_numeric to_datetime) rows).
Proof.
  induction rows as [|r rows IH]; intros H; cbn; constructor.
  - apply H. left. reflexivity.
  - apply IH. intros r' Hr'. apply H. right. exact Hr'.
Qed.

(** ** The claims on [parse_time_series] *)

(** C2, as amended. Let the payload be a dict whose time-series section maps
    N >= 1 timestamp strings to records that all carry the same five field
    labels, with five strings each; let the timestamp strings parse to
    pairwise distinct timestamps and every value string parse to a number.
    Then [parse_time_series] returns a table of exactly N rows, strictly
    ascending by timestamp, and its rows are, one for one, the rows of the
    section with their strings parsed: the first field is [open], then
    [high], [low], [close], [volume]. *)
Theorem uniform_payload_gives_sorted_table :
  forall (members : list (string * json)) (labels : list string)
         (rows : list (string * list string)) (stamps : list Timestamp)
         (symbol interval : option string),
    time_series_section members (section_of labels rows) ->
    rows <> [] ->
    length labels = 5 -> NoDup labels ->
    (forall r, In r rows -> length (snd r) = 5) ->
    traverse to_datetime (map fst rows) = Some stamps -> NoDup stamps ->
    (forall r s, In r rows -> In s (snd r) -> exists n, to_numeric (JStr s) = Some n) ->
    exists table rows',
      parse (Some (JObj members)) symbol interval = Returns table
      /\ length table = length rows
      /\ strictly_ascending table
      /\ Permutation rows rows'
      /\ Forall2 (row_matches to_numeric to_datetime) rows' table.
Proof.
  intros members labels rows stamps symbol interval
         Hsec Hne Hlen Hnd Hrows Hstamps Hdistinct Hnum.
  set (expected := expected_row nan to_numeric to_datetime).
  assert (Hidx : stamps = map (fun r => timestamp_or_NaT to_datetime (fst r)) rows).
  { rewrite traverse_comp in Hstamps.
    exact (traverse_Some_map _ None _ _ Hstamps). }
  assert (Hbuild : build (section_of labels rows) = Returns (sort_index (map expected rows))).
  { unfold build_table.
    rewrite (uniform_section_frame labels rows Hne Hlen Hnd Hrows).
    cbn [bind set_columns width length Nat.eqb].
    rewrite uniform_index, Hstamps. cbn [bind].
    rewrite !uniform_column by (try lia; assumption).
    cbn [bind]. rewrite Hidx, assemble_map. reflexivity. }
  pose proof (sort_index_perm _ (map expected rows)) as Hperm.
  destruct (Permutation_map_inv _ _ Hperm) as [rows' [Htable Hrows']].
  exists (sort_index (map expected rows)), rows'.
  split; [rewrite (parse_reads_section _ _ _ _ Hsec); exact Hbuild|].
  split; [rewrite (Permutation_length Hperm); apply length_map|].
  split.
  - apply ascending_strict; [apply sort_index_ascending|].
    apply (Permutation_NoDup (l := stamps)); [|exact Hdistinct].
    rewrite Hidx. apply Permutation_sym.
    replace (map (fun r => timestamp_or_NaT to_datetime (fst r)) rows)
      with (map timestamp (map expected rows)) by (rewrite map_map; reflexivity).
    apply Permutation_map. exact Hperm.
  - split; [exact Hrows'|].
    rewrite Htable. apply matches_expected.
    intros r Hr'.
    assert (Hr : In r rows) by (apply (Permutation_in r (Permutation_sym Hrows')); exact Hr').
    assert (Hcol : forall j, j < 5 ->
              to_numeric (JStr (nth j (snd r) ""))
              = Some (numeric_or_nan nan to_numeric (nth j (snd r) ""))).
    { intros j Hj.
      assert (Hlt : j < length (snd r)) by (rewrite (Hrows r Hr); exact Hj).
      destruct (Hnum r _ Hr (nth_In _ "" Hlt)) as [n Hn].
      unfold numeric_or_nan. rewrite Hn. reflexivity. }
    unfold row_matches, expected_row. cbn.
    repeat split; try (apply Hcol; lia).
    rewrite traverse_comp in Hstamps.
    destruct (traverse_Some_In _ _ _ Hstamps r Hr) as [t Ht].
    unfold timestamp_or_NaT. rewrite Ht. reflexivity.
Qed.

(** Any dict payload whose time-series section is empty makes the call
    raise. *)
Lemma empty_section_raises (members : list (string * json))
      (symbol interval : option string) :
  time_series_section members (JObj []) ->
  parse (Some (JObj members)) symbol interval = Raises (ValueError "Length mismatch").
Proof.
  intros H. rewrite (parse_reads_section _ _ _ _ H).
  apply build_table_empty_section.
Qed.

(** C3, on the code. For the payload [{"Time Series (5min)": {}}],
    [parse_time_series] raises the [ValueError] of [df.columns = [...]]
    (a frame without columns is given five names), whatever the symbol and
    interval; it does not return an empty table. *)
Theorem empty_time_series_section_raises :
  forall symbol interval : option string,
    parse_time_series Num nan to_numeric to_datetime DataFrame_of_rows keeps_empty_rows
      generate_demo_stock_data (Some only_empty_section) symbol interval
    = Raises (ValueError "Length mismatch").
Proof.
  intros symbol interval. reflexivity.
Qed.

(** C4. On a [Fallback] outcome: with a symbol and an interval (non-empty
    strings, as the data model has them) the result is the generator's
    table for that pair, unchanged; without a symbol or without an interval
    it is the empty table.  An empty string counts as not supplied. *)
Theorem fallback_returns_demo_or_empty :
  forall symbol interval : option string,
    (forall s i, symbol = Some s -> interval = Some i -> s <> "" -> i <> "" ->
       norm Fallback symbol interval = Returns (generate_demo_stock_data s i))
    /\ (symbol = None \/ interval = None -> norm Fallback symbol interval = Returns [])
    /\ (symbol = Some "" \/ interval = Some "" -> norm Fallback symbol interval = Returns []).
Proof.
  intros symbol interval. unfold normalize, Fallback. cbn [fst].
  rewrite parse_falsy by reflexivity. unfold demo_or_empty. repeat split.
  - intros s i -> -> Hs Hi. cbn.
    apply String.eqb_neq in Hs, Hi. rewrite Hs, Hi. reflexivity.
  - intros [-> | ->]; [reflexivity|]. destruct symbol; reflexivity.
  - intros [-> | ->].
    + destruct interval; reflexivity.
    + destruct symbol as [s|]; [|reflexivity]. cbn.
      rewrite andb_false_r. reflexivity.
Qed.

(** C5, as amended. Let the payload be a dict whose time-series section
    maps timestamp strings to records (dicts).  If one row has a field that
    [to_numeric] rejects, or has at least one field and a timestamp string
    that [to_datetime] rejects, [parse_time_series] raises: no table is
    returned, neither one without that row nor the generator's.  This holds
    whether pandas keeps rows that are empty dicts or not. *)
Theorem malformed_row_raises :
  forall (members rows : list (string * json)) (key : string)
         (fields : list (string * json)) (symbol interval : option string),
    time_series_section members (JObj rows) ->
    Forall (fun kv => exists fs, snd kv = JObj fs) rows ->
    In (key, JObj fields) rows ->
    ((to_datetime key = None /\ fields <> [])
     \/ exists label v, lookup label fields = Some v /\ to_numeric v = None) ->
    exists e, parse (Some (JObj members)) symbol interval = Raises e.
Proof.
  intros members rows key fields symbol interval Hsec Hall Hin Hbad.
  rewrite (parse_reads_section _ _ _ _ Hsec).
  destruct (build (JObj rows)) as [table|e] eqn:Hbuild; [exfalso | eauto].
  destruct (build_table_returns_inv _ _ Hbuild)
    as (df & idx & o & h & l & c & v & Hdf & Hw & Hidx & H0 & H1 & H2 & H3 & H4 & _).
  assert (Hne : rows <> []) by (intros ->; contradiction).
  destruct (from_dict_index_records rows Hne Hall) as [recs [Hrows Hfrom]].
  rewrite Hfrom in Hdf. inversion Hdf; subst df. clear Hdf.
  assert (Hrec : In (key, fields) recs).
  { rewrite Hrows in Hin. apply in_map_iff in Hin.
    destruct Hin as [[k fs] [E Hin]]. cbn in E. inversion E; subst. exact Hin. }
  (* the row has a field, so it is in the frame under either pandas *)
  assert (Hfields : fields <> []).
  { destruct Hbad as [[_ Hf] | [label [bad [Hlook _]]]]; [exact Hf|].
    intros ->. discriminate. }
  set (cols := union_labels recs) in *.
  assert (Hentry : In (key, map (fun c => lookup c fields) cols)
                      (entries (from_nested_dict keeps_empty_rows recs))).
  { unfold from_nested_dict. cbn [entries].
    apply in_map_iff. exists (key, fields). split; [reflexivity|].
    destruct keeps_empty_rows; [exact Hrec|].
    apply filter_In. split; [exact Hrec|].
    unfold has_fields. cbn. destruct fields; [congruence | reflexivity]. }
  destruct Hbad as [[Hts _] | [label [bad [Hlook Hnum]]]].
  - (* the timestamp *)
    unfold to_datetime_index in Hidx.
    destruct (traverse to_datetime
                (map fst (entries (from_nested_dict keeps_empty_rows recs))))
      as [ts|] eqn:Htr; [|discriminate].
    destruct (traverse_Some_In _ _ _ Htr key) as [t Ht].
    { apply in_map_iff. exists (key, map (fun c => lookup c fields) cols).
      split; [reflexivity | exact Hentry]. }
    congruence.
  - (* a field: it sits in one of the five columns *)
    assert (Hcol : In label cols).
    { apply (union_labels_In recs (key, fields) label Hrec).
      exact (lookup_In _ _ _ Hlook). }
    destruct (In_nth _ _ "" Hcol) as [j [Hj Hnth]].
    assert (Hwidth : length cols = 5) by exact Hw.
    assert (Hfail : forall col,
               column (from_nested_dict keeps_empty_rows recs) j <> Returns col).
    { intros col Hc. unfold to_numeric_column in Hc.
      match type of Hc with
      | context [traverse ?f ?rs] => destruct (traverse f rs) as [ys|] eqn:Htr
      end; [|discriminate].
      destruct (traverse_Some_In _ _ _ Htr _ Hentry) as [y Hy].
      cbn [snd] in Hy.
      rewrite (nth_indep _ None (lookup "" fields)) in Hy
        by (rewrite length_map; exact Hj).
      rewrite (map_nth (fun c => lookup c fields)), Hnth, Hlook in Hy.
      cbn in Hy. congruence. }
    rewrite Hwidth in Hj.
    destruct j as [|[|[|[|[|j]]]]]; try lia;
      [exact (Hfail _ H0) | exact (Hfail _ H1) | exact (Hfail _ H2)
       | exact (Hfail _ H3) | exact (Hfail _ H4)].
Qed.

(** C8. A non-empty dict payload with no key that starts with "Time Series"
    is handled exactly as [Fallback] is: the result is the generator's table
    for the symbol and interval when both are given (non-empty strings), and
    the empty table when one of them is missing or empty. *)
Theorem payload_without_section_is_Fallback :
  forall (members : list (string * json)) (symbol interval : option string),
    members <> [] ->
    (forall k, In k (map fst members) -> prefix "Time Series" k = false) ->
    norm (Payload (JObj members)) symbol interval = norm Fallback symbol interval
    /\ (forall s i, symbol = Some s -> interval = Some i -> s <> "" -> i <> "" ->
          norm (Payload (JObj members)) symbol interval
          = Returns (generate_demo_stock_data s i))
    /\ (symbol = None \/ interval = None \/ symbol = Some "" \/ interval = Some "" ->
          norm (Payload (JObj members)) symbol interval = Returns []).
Proof.
  intros members symbol interval Hne Hkeys.
  unfold normalize, Payload, Fallback. cbn [fst].
  rewrite (parse_without_section _ _ _ Hne (find_time_series_key_none _ Hkeys)).
  rewrite parse_falsy by reflexivity. unfold demo_or_empty.
  split; [reflexivity|]. split.
  - intros s i -> -> Hs Hi. cbn.
    apply String.eqb_neq in Hs, Hi. rewrite Hs, Hi. reflexivity.
  - intros [-> | [-> | [-> | ->]]].
    + reflexivity.
    + destruct symbol; reflexivity.
    + destruct interval; reflexivity.
    + destruct symbol as [s|]; [|reflexivity]. cbn.
      rewrite andb_false_r. reflexivity.
Qed.

(** With a generator that has no state the threaded function is the plain
    one. *)
Lemma parse_time_series_st_stateless (World : Type) (response : option json)
      (symbol interval : option string) (w : World) :
  parse_time_series_st Num nan to_numeric to_datetime DataFrame_of_rows
    keeps_empty_rows World (fun s i w' => (generate_demo_stock_data s i, w'))
    response symbol interval w
  = (parse response symbol interval, w).
Proof.
  assert (Hdemo : demo_or_empty_st Num World
                    (fun s i w' => (generate_demo_stock_data s i, w'))
                    symbol interval w
                  = (demo symbol interval, w)).
  { unfold demo_or_empty_st, demo_or_empty.
    destruct symbol, interval; try reflexivity.
    destruct (truthy_str _ && truthy_str _); reflexivity. }
  unfold parse_time_series_st, parse_time_series.
  destruct (negb (truthy_opt response)); [exact Hdemo|].
  destruct response as [[]|]; try reflexivity.
  destruct (negb (truthy_str (find_time_series_key members))); [exact Hdemo|].
  destruct (find_time_series_key members); [|exact Hdemo].
  destruct (lookup s members); reflexivity.
Qed.



End NormalizerProperties.

(** * The two functions composed *)

Section Composition.

Variable ALPHA_VANTAGE_BASE_URL : string.
Variable ALPHA_VANTAGE_API_KEY : string.
Variable requests_get : string -> list (string * string) -> Z -> transport.
Variable Num : Type.
Variable nan : Num.
Variable to_numeric : json -> option Num.
Variable to_datetime : string -> option Timestamp.
Variable DataFrame_of_rows : list (string * json) -> result Frame.
Variable keeps_empty_rows : bool.
Variable generate_demo_stock_data : string -> string -> DataFrame Num.

Local Abbreviation fetch :=
  (fetch_intraday_data ALPHA_VANTAGE_BASE_URL ALPHA_VANTAGE_API_KEY requests_get).
Local Abbreviation request symbol interval api_key :=
  (send ALPHA_VANTAGE_BASE_URL requests_get symbol interval
     (key_or_default ALPHA_VANTAGE_API_KEY api_key)).
Local Abbreviation norm :=
  (normalize Num nan to_numeric to_datetime DataFrame_of_rows keeps_empty_rows
     generate_demo_stock_data).

(** C10. When the response has a 2xx status and its body parses to the
    empty dict, [fetch_intraday_data] returns [Payload {}], which is not
    [Fallback]; and for every symbol and interval [normalize] on that
    outcome returns what it returns on [Fallback]. *)
Theorem empty_body_is_Payload_normalized_as_Fallback :
  forall (symbol interval : string) (api_key : option string) (r : Response),
    request symbol interval api_key = Responded r ->
    success_status (status_code r) = true ->
    json_body r = Returns (JObj []) ->
    fetch symbol interval api_key = Returns (mkFetched [] (Payload (JObj [])))
    /\ Payload (JObj []) <> Fallback
    /\ forall sym int : option string,
         norm (Payload (JObj [])) sym int = norm Fallback sym int.
Proof.
  intros symbol interval api_key r Hs Hst Hj. split; [|split].
  - apply fetch_after_return.
    apply (try_block_returns _ _ _ _ _ r); auto.
    apply success_status_passes. exact Hst.
  - discriminate.
  - intros sym int. reflexivity.
Qed.

End Composition.

(** * The model run on concrete payloads *)

Lemma sample_section :
  time_series_section
    [("Meta Data", meta_data);
     ("Time Series (5min)", section_of sample_labels sample_rows)]
    (section_of sample_labels sample_rows).
Proof.
  exists "Time Series (5min)". split; reflexivity.
Qed.

Lemma sample_labels_distinct : NoDup sample_labels.
Proof.
  unfold sample_labels.
  repeat (constructor; [cbn; intuition discriminate|]). constructor.
Qed.

(** C2, on the sample payload: three rows, in ascending order. *)
Lemma uniform_payload_gives_sorted_table_sample :
  exists table rows',
    sample_parse (Some sample_payload) (Some "IBM") (Some "5min") = Returns table
    /\ length table = length sample_rows
    /\ strictly_ascending table
    /\ Permutation sample_rows rows'
    /\ Forall2 (row_matches sample_to_numeric sample_to_datetime) rows' table.
Proof.
  apply (uniform_payload_gives_sorted_table SampleNum None sample_to_numeric
           sample_to_datetime sample_DataFrame_of_rows sample_keeps_empty_rows sample_generate
           _ sample_labels sample_rows
           [Some 20240102094000%Z; Some 20240102093500%Z; Some 20240102093000%Z]).
  - exact sample_section.
  - discriminate.
  - reflexivity.
  - exact sample_labels_distinct.
  - intros r [<-|[<-|[<-|[]]]]; reflexivity.
  - reflexivity.
  - repeat (constructor; [cbn; intuition discriminate|]). constructor.
  - intros r s [<-|[<-|[<-|[]]]] Hs; cbn in Hs;
      repeat (destruct Hs as [<-|Hs]; [eexists; vm_compute; reflexivity|]);
      contradiction.
Defined.

(** C2 fails as stated: two rows of five numeric strings under different
    labels make ten columns, and a section without entries makes none; in
    both cases naming the five columns raises. *)
Lemma mixed_labels_or_no_rows_raise :
  sample_parse (Some mixed_labels_payload) (Some "IBM") (Some "5min")
  = Raises (ValueError "Length mismatch")
  /\ sample_parse (Some empty_section_payload) (Some "IBM") (Some "5min")
     = Raises (ValueError "Length mismatch").
Proof.
  split; reflexivity.
Qed.

(** C4, with and without symbol and interval. *)
Lemma fallback_returns_demo_or_empty_sample :
  normalize SampleNum None sample_to_numeric sample_to_datetime
    sample_DataFrame_of_rows sample_keeps_empty_rows sample_generate Fallback (Some "AAPL") (Some "5min")
  = Returns (sample_generate "AAPL" "5min").
Proof.
  apply (fallback_returns_demo_or_empty SampleNum None sample_to_numeric
           sample_to_datetime sample_DataFrame_of_rows sample_keeps_empty_rows sample_generate
           (Some "AAPL") (Some "5min"));
    [reflexivity | reflexivity | discriminate | discriminate].
Defined.

(** C5, on a payload whose second row has the volume "n/a". *)
Lemma malformed_row_raises_sample :
  exists e, sample_parse (Some (JObj bad_volume_payload)) (Some "IBM") (Some "5min")
            = Raises e.
Proof.
  apply (malformed_row_raises SampleNum None sample_to_numeric sample_to_datetime
           sample_DataFrame_of_rows sample_keeps_empty_rows sample_generate
           bad_volume_payload bad_volume_rows "2024-01-02 09:30:00"
           (combine sample_labels
              (map JStr ["99.50"; "100.10"; "99.40"; "100.00"; "n/a"]))).
  - exists "Time Series (5min)". split; reflexivity.
  - repeat (constructor; [cbn; eexists; reflexivity|]). constructor.
  - right. left. reflexivity.
  - right. exists "5. volume", (JStr "n/a"). split; reflexivity.
Defined.

(** C5 fails as stated: the key "not a date" fails date-time parsing, but
    its record is the empty dict, and under a pandas that leaves such rows
    out of the frame (pandas 2) the key is never parsed; the call returns
    the table of the other row. *)
Lemma row_without_fields_is_skipped :
  sample_to_datetime "not a date" = None
  /\ sample_parse (Some (JObj skipped_row_payload)) (Some "IBM") (Some "5min")
     = Returns [mkRow (Some 20240102093000%Z)
                  (Some (Qmake 9950 100)) (Some (Qmake 10010 100))
                  (Some (Qmake 9940 100)) (Some (Qmake 10000 100))
                  (Some (Qmake 5600 1))].
Proof.
  split; reflexivity.
Qed.

(** C6, for the status 401. *)
Lemma error_status_gives_Fallback_sample :
  exists line, sample_fetch (answering response_401) = Returns (mkFetched [line] Fallback).
Proof.
  apply (proj1 (error_status_or_failed_request_gives_Fallback
                  "https://www.alphavantage.co/query" "demo" (answering response_401)
                  "IBM" "5min" None) response_401);
    [reflexivity | cbn; lia].
Defined.

(** C6 fails as stated: a response with the status 300, which is not a 2xx
    status, and a body without markers is returned as [Payload]. *)
Lemma status_300_gives_Payload :
  success_status (status_code response_300) = false
  /\ sample_fetch (answering response_300)
     = Returns (mkFetched [] (Payload sample_payload))
  /\ Payload sample_payload <> Fallback.
Proof.
  split; [reflexivity|]. split; [reflexivity | discriminate].
Qed.

(** C7, for a body with the key "Note". *)
Lemma marker_gives_Fallback_sample :
  exists line,
    sample_fetch (answering response_rate_limited) = Returns (mkFetched [line] Fallback).
Proof.
  apply (proj1 (marker_gives_Fallback_and_Payload_needs_clean_body
                  "https://www.alphavantage.co/query" "demo"
                  (answering response_rate_limited) "IBM" "5min" None)
               response_rate_limited
               [("Note", JStr "Thank you for using Alpha Vantage!")]);
    [reflexivity | reflexivity | right; left; reflexivity].
Defined.

(** C7 fails as stated: [Payload] is returned for a response whose status,
    302, is not a success (the spec counts every status that is not 2xx as
    a non-success). *)
Lemma status_302_gives_Payload :
  success_status (status_code response_302) = false
  /\ sample_fetch (answering response_302)
     = Returns (mkFetched [] (Payload (JObj [("Information", JStr "moved")]))).
Proof.
  split; reflexivity.
Qed.

(** C8, on a payload that only carries an "Information" key. *)
Lemma payload_without_section_is_Fallback_sample :
  normalize SampleNum None sample_to_numeric sample_to_datetime
    sample_DataFrame_of_rows sample_keeps_empty_rows sample_generate
    (Payload (JObj information_payload)) (Some "IBM") (Some "5min")
  = Returns (sample_generate "IBM" "5min").
Proof.
  apply (proj1 (proj2 (payload_without_section_is_Fallback SampleNum None
                         sample_to_numeric sample_to_datetime
                         sample_DataFrame_of_rows sample_keeps_empty_rows
                         sample_generate
                         information_payload (Some "IBM") (Some "5min")
                         ltac:(discriminate)
                         ltac:(intros k [<-|[]]; reflexivity)))
               "IBM" "5min");
    [reflexivity | reflexivity | discriminate | discriminate].
Defined.



(** C10, for a 200 response with the body [{}]. *)
Lemma empty_body_sample :
  sample_fetch (answering response_empty_body)
  = Returns (mkFetched [] (Payload (JObj [])))
  /\ Payload (JObj []) <> Fallback
  /\ forall sym int : option string,
       normalize SampleNum None sample_to_numeric sample_to_datetime
         sample_DataFrame_of_rows sample_keeps_empty_rows sample_generate (Payload (JObj [])) sym int
       = normalize SampleNum None sample_to_numeric sample_to_datetime
           sample_DataFrame_of_rows sample_keeps_empty_rows sample_generate Fallback sym int.
Proof.
  apply (empty_body_is_Payload_normalized_as_Fallback
           "https://www.alphavantage.co/query" "demo" (answering response_empty_body)
           SampleNum None sample_to_numeric sample_to_datetime
           sample_DataFrame_of_rows sample_keeps_empty_rows sample_generate
           "IBM" "5min" None response_empty_body);
    reflexivity.
Defined.

(** * Further properties of the Fetcher *)

Lemma append_assoc (a b c : string) : (a ++ b) ++ c = a ++ b ++ c.
Proof.
  induction a as [|ch a IH]; cbn; [reflexivity|]. rewrite IH. reflexivity.
Qed.

Lemma key_absent (key : string) (members : list (string * json)) :
  ~ In key (map fst members) ->
  existsb (fun kv => fst kv =? key) members = false.
Proof.
  intros H. destruct (existsb _ members) eqn:E; [|reflexivity].
  exfalso. apply H. apply existsb_exists in E. destruct E as [kv [Hin Heq]].
  apply String.eqb_eq in Heq. subst key. apply in_map. exact Hin.
Qed.

Lemma key_present (key : string) (members : list (string * json)) :
  In key (map fst members) ->
  existsb (fun kv => fst kv =? key) members = true.
Proof.
  intros H. apply in_map_iff in H. destruct H as [kv [E Hin]].
  apply existsb_exists. exists kv. split; [exact Hin|].
  rewrite E. apply String.eqb_refl.
Qed.

Lemma item_absent (key : string) (items : list json) :
  ~ In (JStr key) items ->
  existsb (fun v => match v with JStr s => s =? key | _ => false end) items = false.
Proof.
  intros H. destruct (existsb _ items) eqn:E; [|reflexivity].
  exfalso. apply H. apply existsb_exists in E. destruct E as [v [Hin Heq]].
  destruct v; try discriminate.
  apply String.eqb_eq in Heq. subst key. exact Hin.
Qed.

(** Every [except] clause names the symbol at the end of its line. *)
Lemma handlers_name_the_symbol (symbol : string) (e : exn) :
  exists cause,
    handlers symbol e
    = Returns (mkFetched [cause ++ "Using demo data for " ++ symbol ++ "."] Fallback).
Proof.
  destruct e; cbn;
    try (exists ("Error occurred: " ++ msg ++ ". ");
         rewrite !append_assoc; reflexivity).
  - destruct (status =? 401)%Z; [exists "Invalid API key. "; reflexivity|].
    destruct (status =? 429)%Z; [exists "API rate limit exceeded. "; reflexivity|].
    exists ("HTTP error occurred: " ++ msg ++ ". ").
    rewrite !append_assoc. reflexivity.
  - exists "Network connection error. ". reflexivity.
  - exists "Network connection error. ". reflexivity.
  - exists "Request timed out. ". reflexivity.
Qed.

Section FetcherCoverage.

Variable ALPHA_VANTAGE_BASE_URL : string.
Variable ALPHA_VANTAGE_API_KEY : string.
Variable requests_get : string -> list (string * string) -> Z -> transport.

Local Abbreviation fetch :=
  (fetch_intraday_data ALPHA_VANTAGE_BASE_URL ALPHA_VANTAGE_API_KEY requests_get).
Local Abbreviation request symbol interval api_key :=
  (send ALPHA_VANTAGE_BASE_URL requests_get symbol interval
     (key_or_default ALPHA_VANTAGE_API_KEY api_key)).
Local Abbreviation attempt symbol interval api_key :=
  (try_block ALPHA_VANTAGE_BASE_URL requests_get symbol interval
     (key_or_default ALPHA_VANTAGE_API_KEY api_key)).

Lemma fetch_handles (symbol interval : string) (api_key : option string) (e : exn) :
  attempt symbol interval api_key = Raises e ->
  fetch symbol interval api_key = handlers symbol e.
Proof.
  intros H. unfold fetch_intraday_data. rewrite H. reflexivity.
Qed.

(** X1. For a response with a status in 400..599 the outcome is [Fallback]
    and the one printed line is chosen by the status: the invalid-key line
    for 401, the rate-limit line for 429, and for every other status the
    HTTP-error line around [str(e)], where [e] is the exception that
    [raise_for_status] raised for this response. *)
Theorem error_status_chooses_the_line :
  forall (symbol interval : string) (api_key : option string) (r : Response),
    request symbol interval api_key = Responded r ->
    (400 <= status_code r < 600)%Z ->
    exists f,
      fetch symbol interval api_key = Returns f
      /\ outcome f = Fallback
      /\ (status_code r = 401%Z ->
          printed f = ["Invalid API key. Using demo data for " ++ symbol ++ "."])
      /\ (status_code r = 429%Z ->
          printed f = ["API rate limit exceeded. Using demo data for " ++ symbol ++ "."])
      /\ (status_code r <> 401%Z -> status_code r <> 429%Z ->
          exists e,
            raise_for_status r = Raises e
            /\ printed f = ["HTTP error occurred: " ++ str_exn e
                              ++ ". Using demo data for " ++ symbol ++ "."]).
Proof.
  intros symbol interval api_key r Hs Hst.
  destruct (raise_for_status_error r Hst) as [msg Hr].
  assert (Ha : attempt symbol interval api_key
               = Raises (HTTPError (status_code r) msg)).
  { unfold try_block. rewrite Hs, Hr. reflexivity. }
  rewrite (fetch_handles _ _ _ _ Ha). cbn.
  eexists. split; [reflexivity|]. cbn. split; [reflexivity|].
  split; [|split].
  - intros ->. reflexivity.
  - intros ->. reflexivity.
  - intros H1 H2.
    apply Z.eqb_neq in H1, H2. rewrite H1, H2.
    exists (HTTPError (status_code r) msg). split; [exact Hr | reflexivity].
Qed.

(** X2. A connect timeout, which is both a [ConnectionError] and a
    [Timeout], is reported by the connection-error line, as a plain
    [ConnectionError] is; only a timeout that is not a connection error gets
    the timed-out line.  The outcome is [Fallback] in all three cases. *)
Theorem connect_timeout_is_reported_as_connection_error :
  forall (symbol interval : string) (api_key : option string) (msg : string),
    (request symbol interval api_key = Failed (ConnectTimeout msg)
     \/ request symbol interval api_key = Failed (ConnectionError msg) ->
     fetch symbol interval api_key
     = Returns (mkFetched
         ["Network connection error. Using demo data for " ++ symbol ++ "."] Fallback))
    /\ (request symbol interval api_key = Failed (Timeout msg) ->
        fetch symbol interval api_key
        = Returns (mkFetched
            ["Request timed out. Using demo data for " ++ symbol ++ "."] Fallback)).
Proof.
  intros symbol interval api_key msg. split.
  - intros [H|H]; unfold fetch_intraday_data, try_block; rewrite H; reflexivity.
  - intros H. unfold fetch_intraday_data, try_block. rewrite H. reflexivity.
Qed.

(** X3. What [fetch_intraday_data] prints goes with what it returns: with
    [Fallback] exactly one line, which ends by naming the symbol ("Using
    demo data for <symbol>."), and with a payload nothing. *)
Theorem fetch_prints_one_line_on_Fallback_only :
  forall (symbol interval : string) (api_key : option string) (f : Fetched),
    fetch symbol interval api_key = Returns f ->
    (outcome f = Fallback
     /\ exists cause, printed f = [cause ++ "Using demo data for " ++ symbol ++ "."])
    \/ (exists data, outcome f = Payload data /\ printed f = []).
Proof.
  intros symbol interval api_key f Hf.
  destruct (attempt symbol interval api_key) as [data|e] eqn:Ha.
  - rewrite (fetch_after_return _ _ _ _ _ _ _ Ha) in Hf.
    inversion Hf; subst f. right. exists data. split; reflexivity.
  - rewrite (fetch_handles _ _ _ _ Ha) in Hf.
    destruct (handlers_name_the_symbol symbol e) as [cause Hc].
    rewrite Hc in Hf. inversion Hf; subst f. left.
    split; [reflexivity|]. exists cause. reflexivity.
Qed.

(** X5. A response whose body does not parse, or parses to [null], a
    boolean or a number, gives [Fallback], whatever its status: the JSON
    error and the [TypeError] of the marker test end in the last [except]
    clause (or the status has raised before). *)
Theorem unusable_body_gives_Fallback :
  forall (symbol interval : string) (api_key : option string) (r : Response),
    request symbol interval api_key = Responded r ->
    (exists e, json_body r = Raises e)
    \/ (exists data, json_body r = Returns data /\ is_scalar data = true) ->
    exists line, fetch symbol interval api_key = Returns (mkFetched [line] Fallback).
Proof.
  intros symbol interval api_key r Hs Hbody.
  assert (Ha : exists e, attempt symbol interval api_key = Raises e).
  { unfold try_block. rewrite Hs.
    destruct (raise_for_status r) as [[]|e]; [|cbn; eauto]. cbn.
    destruct Hbody as [[e He] | [data [Hd Hsc]]].
    - rewrite He. cbn. eauto.
    - rewrite Hd. cbn. destruct data; try discriminate; cbn; eauto. }
  destruct Ha as [e Ha].
  exact (fetch_after_raise _ _ _ _ _ _ _ Ha).
Qed.

(** X6. For a dict body read under a status outside 400..599: a key
    "Error Message" gives the invalid-symbol line, also when "Note" is
    there too; "Note" alone gives the rate-limit line.  Both lines come
    from the last [except] clause, which wraps the message. *)
Theorem marker_chooses_the_line :
  forall (symbol interval : string) (api_key : option string) (r : Response)
         (members : list (string * json)),
    request symbol interval api_key = Responded r ->
    ~ (400 <= status_code r < 600)%Z ->
    json_body r = Returns (JObj members) ->
    (In "Error Message" (map fst members) ->
     fetch symbol interval api_key
     = Returns (mkFetched
         ["Error occurred: Invalid symbol: " ++ symbol ++ ". Using demo data for "
            ++ symbol ++ "."] Fallback))
    /\ (~ In "Error Message" (map fst members) -> In "Note" (map fst members) ->
        fetch symbol interval api_key
        = Returns (mkFetched
            ["Error occurred: API rate limit reached. Using demo data instead.. Using demo data for "
               ++ symbol ++ "."] Fallback)).
Proof.
  intros symbol interval api_key r members Hs Hst Hj.
  pose proof (raise_for_status_pass r Hst) as Hr.
  split.
  - intros He.
    unfold fetch_intraday_data, try_block. rewrite Hs, Hr. cbn. rewrite Hj. cbn.
    rewrite (key_present _ _ He). cbn. reflexivity.
  - intros He Hn.
    unfold fetch_intraday_data, try_block. rewrite Hs, Hr. cbn. rewrite Hj. cbn.
    rewrite (key_absent _ _ He). cbn. rewrite (key_present _ _ Hn). reflexivity.
Qed.

End FetcherCoverage.

(** X4. [fetch_intraday_data] reads the network through one request only:
    a GET of the base URL with the parameters function, symbol, interval,
    outputsize and apikey (the configured key when none is given) and the
    timeout 10.  Two networks that answer this request alike give the same
    result. *)
Theorem fetch_depends_on_one_request :
  forall (base_url default_key : string)
         (net1 net2 : string -> list (string * string) -> Z -> transport)
         (symbol interval : string) (api_key : option string),
    net1 base_url
      [("function", "TIME_SERIES_INTRADAY"); ("symbol", symbol);
       ("interval", interval); ("outputsize", "full");
       ("apikey", match api_key with Some k => k | None => default_key end)] 10%Z
    = net2 base_url
        [("function", "TIME_SERIES_INTRADAY"); ("symbol", symbol);
         ("interval", interval); ("outputsize", "full");
         ("apikey", match api_key with Some k => k | None => default_key end)] 10%Z ->
    fetch_intraday_data base_url default_key net1 symbol interval api_key
    = fetch_intraday_data base_url default_key net2 symbol interval api_key.
Proof.
  intros base_url default_key net1 net2 symbol interval api_key H.
  unfold fetch_intraday_data, try_block, send, intraday_params, key_or_default.
  rewrite H. reflexivity.
Qed.

(** * Further properties of the Normalizer *)

Lemma section_after_unprefixed_keys (pre post : list (string * json)) (key : string)
      (section : json) :
  (forall k, In k (map fst pre) -> prefix "Time Series" k = false) ->
  prefix "Time Series" key = true ->
  time_series_section (pre ++ (key, section) :: post) section.
Proof.
  intros Hpre Hkey. exists key. split.
  - unfold find_time_series_key.
    induction pre as [|[k v] pre IH]; cbn.
    + rewrite Hkey. reflexivity.
    + rewrite (Hpre k (or_introl eq_refl)). apply IH.
      intros k' Hk'. apply Hpre. right. exact Hk'.
  - induction pre as [|[k v] pre IH]; cbn.
    + rewrite String.eqb_refl. reflexivity.
    + destruct (k =? key) eqn:E.
      * apply String.eqb_eq in E. subst k.
        rewrite (Hpre key (or_introl eq_refl)) in Hkey. discriminate.
      * apply IH. intros k' Hk'. apply Hpre. right. exact Hk'.
Qed.

Lemma traverse_length {A B : Type} (f : A -> option B) (l : list A) (ys : list B) :
  traverse f l = Some ys -> length ys = length l.
Proof.
  revert ys. induction l as [|a l IH]; intros ys H; cbn in H.
  - inversion H. reflexivity.
  - destruct (f a); [|discriminate].
    destruct (traverse f l) as [ys'|]; [|discriminate].
    inversion H. cbn. f_equal. apply IH. reflexivity.
Qed.

(** Columns as long as the index give one row per index entry. *)
Lemma assemble_timestamps {Num : Type} (idx : list Timestamp) :
  forall o h l c v : list Num,
    length o = length idx -> length h = length idx -> length l = length idx ->
    length c = length idx -> length v = length idx ->
    map timestamp (assemble idx o h l c v) = idx.
Proof.
  induction idx as [|t idx IH]; intros o h l c v Ho Hh Hl Hc Hv; [reflexivity|].
  destruct o as [|x1 o], h as [|x2 h], l as [|x3 l], c as [|x4 c], v as [|x5 v];
    try discriminate.
  cbn. f_equal. apply IH; cbn in *; lia.
Qed.

Section NormalizerCoverage.

Variable Num : Type.
Variable nan : Num.
Variable to_numeric : json -> option Num.
Variable to_datetime : string -> option Timestamp.
Variable DataFrame_of_rows : list (string * json) -> result Frame.
Variable keeps_empty_rows : bool.
Variable generate_demo_stock_data : string -> string -> DataFrame Num.

Local Abbreviation parse :=
  (parse_time_series Num nan to_numeric to_datetime DataFrame_of_rows keeps_empty_rows
     generate_demo_stock_data).
Local Abbreviation norm :=
  (normalize Num nan to_numeric to_datetime DataFrame_of_rows keeps_empty_rows
     generate_demo_stock_data).
Local Abbreviation build :=
  (build_table Num nan to_numeric to_datetime DataFrame_of_rows keeps_empty_rows).
Local Abbreviation column := (to_numeric_column Num nan to_numeric).

Lemma column_length (df : Frame) (j : nat) (col : list Num) :
  column df j = Returns col -> length col = length (entries df).
Proof.
  unfold to_numeric_column. intros H.
  match type of H with
  | context [traverse ?f ?rs] => destruct (traverse f rs) as [ys|] eqn:Htr
  end; [|discriminate].
  inversion H; subst col. exact (traverse_length _ _ _ Htr).
Qed.

(** X7. The section is found by prefix: the value under the first key that
    starts with "Time Series" is parsed, whatever follows the prefix in
    that key; the keys before it (which lack the prefix), every entry after
    it, the symbol and the interval do not change the result. *)
Theorem first_prefixed_key_selects_the_section :
  forall (pre post : list (string * json)) (key : string) (section : json)
         (symbol interval : option string),
    (forall k, In k (map fst pre) -> prefix "Time Series" k = false) ->
    prefix "Time Series" key = true ->
    parse (Some (JObj (pre ++ (key, section) :: post))) symbol interval
    = parse (Some (JObj [(key, section)])) None None.
Proof.
  intros pre post key section symbol interval Hpre Hkey.
  rewrite (parse_reads_section _ _ _ _ _ _ _ _ section symbol interval
             (section_after_unprefixed_keys pre post key section Hpre Hkey)).
  symmetry.
  apply (parse_reads_section _ _ _ _ _ _ _ [(key, section)] section None None).
  apply (section_after_unprefixed_keys [] [] key section); [|exact Hkey].
  intros k [].
Qed.

(** X8. Whatever the shape of the section, a table returned for a payload
    that has one is in ascending order of timestamp. *)
Theorem returned_table_is_ascending :
  forall (members : list (string * json)) (section : json)
         (symbol interval : option string) (table : DataFrame Num),
    time_series_section members section ->
    parse (Some (JObj members)) symbol interval = Returns table ->
    ascending table.
Proof.
  intros members section symbol interval table Hsec Hp.
  rewrite (parse_reads_section _ _ _ _ _ _ _ _ _ _ _ Hsec) in Hp.
  destruct (build_table_returns_inv _ _ _ _ _ _ _ _ Hp)
    as (df & idx & o & h & l & c & v & _ & _ & _ & _ & _ & _ & _ & _ & Ht).
  subst table. apply sort_index_ascending.
Qed.

(** X9. For a section whose rows are all dicts with at least one field, a
    returned table has exactly one row for each row of the section, and its
    timestamps are, up to order, the parses of the keys: building and
    sorting the table neither drops nor merges a row, also when timestamps
    coincide. *)
Theorem table_has_one_row_per_record :
  forall (members rows : list (string * json)) (symbol interval : option string)
         (table : DataFrame Num),
    time_series_section members (JObj rows) ->
    rows_are_records rows ->
    parse (Some (JObj members)) symbol interval = Returns table ->
    exists stamps,
      traverse to_datetime (map fst rows) = Some stamps
      /\ Permutation (map timestamp table) stamps
      /\ length table = length rows.
Proof.
  intros members rows symbol interval table Hsec Hrecs Hp.
  unfold rows_are_records in Hrecs.
  rewrite (parse_reads_section _ _ _ _ _ _ _ _ _ _ _ Hsec) in Hp.
  destruct (build_table_returns_inv _ _ _ _ _ _ _ _ Hp)
    as (df & idx & o & h & l & c & v & Hdf & Hw & Hidx & H0 & H1 & H2 & H3 & H4 & Ht).
  assert (Hne : rows <> []).
  { intros ->. cbn in Hdf. inversion Hdf; subst df. discriminate. }
  assert (Hall : Forall (fun kv => exists fs, snd kv = JObj fs) rows).
  { eapply Forall_impl; [|exact Hrecs]. cbn. intros kv [fs [E _]]. eauto. }
  destruct (from_dict_index_records DataFrame_of_rows keeps_empty_rows rows Hne Hall)
    as [recs [Hrows Hfrom]].
  rewrite Hfrom in Hdf. inversion Hdf; subst df. clear Hdf.
  assert (Hkept : (if keeps_empty_rows then recs else filter has_fields recs) = recs).
  { apply kept_all. intros rec Hrec.
    rewrite Forall_forall in Hrecs.
    destruct (Hrecs (fst rec, JObj (snd rec))) as [fs [E Hfs]].
    { rewrite Hrows. apply in_map_iff. exists rec. split; [reflexivity | exact Hrec]. }
    cbn in E. inversion E; subst fs.
    unfold has_fields. destruct (snd rec); [congruence | reflexivity]. }
  unfold to_datetime_index in Hidx.
  destruct (traverse to_datetime
              (map fst (entries (from_nested_dict keeps_empty_rows recs))))
    as [stamps|] eqn:Htr; [|discriminate].
  inversion Hidx; subst idx. clear Hidx.
  assert (Hkeys : map fst (entries (from_nested_dict keeps_empty_rows recs))
                  = map fst rows).
  { unfold from_nested_dict. cbn [entries]. rewrite Hkept, Hrows, !map_map.
    reflexivity. }
  assert (Hlen : length stamps
                 = length (entries (from_nested_dict keeps_empty_rows recs))).
  { rewrite (traverse_length _ _ _ Htr). apply length_map. }
  assert (Hts : map timestamp (assemble stamps o h l c v) = stamps).
  { apply assemble_timestamps; rewrite Hlen; eapply column_length; eassumption. }
  exists stamps. rewrite <- Hkeys. split; [exact Htr|].
  assert (Hperm : Permutation (map timestamp table) stamps).
  { subst table. rewrite <- Hts at 2. apply Permutation_map. apply sort_index_perm. }
  split; [exact Hperm|].
  rewrite <- (length_map timestamp table), (Permutation_length Hperm).
  rewrite (traverse_length _ _ _ Htr), Hkeys. apply length_map.
Qed.

(** The frame of a section whose records all carry the same labels has one
    column for each label. *)
Lemma uniform_section_width (labels : list string) (rows : list (string * list string)) :
  rows <> [] -> NoDup labels ->
  (forall r, In r rows -> length (snd r) = length labels) ->
  exists df, from_dict_index DataFrame_of_rows keeps_empty_rows (section_of labels rows) = Returns df
             /\ width df = length labels.
Proof.
  intros Hne Hnd Hrows.
  set (recs := map (fun r => (fst r, combine labels (map JStr (snd r)))) rows).
  assert (Hsec : section_of labels rows
                 = JObj (map (fun rec => (fst rec, JObj (snd rec))) recs)).
  { unfold section_of, record_of, recs. rewrite map_map. reflexivity. }
  assert (Hlabels : forall rec, In rec recs -> map fst (snd rec) = labels).
  { intros rec Hin. apply in_map_iff in Hin. destruct Hin as [r [<- Hr]]. cbn.
    apply map_fst_combine. rewrite length_map, (Hrows r Hr). reflexivity. }
  assert (Hrecs : recs <> []).
  { unfold recs. destruct rows; [congruence | discriminate]. }
  exists (from_nested_dict keeps_empty_rows recs). split.
  - rewrite Hsec. pose proof (as_records_map recs) as Has.
    destruct recs as [|[k fields] recs']; [congruence|].
    cbn [map fst snd from_dict_index] in *. rewrite Has. reflexivity.
  - unfold from_nested_dict. cbn [width].
    rewrite (union_labels_uniform labels recs Hnd Hrecs Hlabels). reflexivity.
Qed.

(** X10. A section whose records all carry the same labels, but not five of
    them (a field missing, or one added), makes [parse_time_series] raise
    the [ValueError] of the column naming, whatever the values are. *)
Theorem wrong_number_of_fields_raises :
  forall (members : list (string * json)) (labels : list string)
         (rows : list (string * list string)) (symbol interval : option string),
    time_series_section members (section_of labels rows) ->
    rows <> [] -> NoDup labels -> length labels <> 5 ->
    (forall r, In r rows -> length (snd r) = length labels) ->
    parse (Some (JObj members)) symbol interval = Raises (ValueError "Length mismatch").
Proof.
  intros members labels rows symbol interval Hsec Hne Hnd Hlen Hrows.
  rewrite (parse_reads_section _ _ _ _ _ _ _ _ _ _ _ Hsec).
  destruct (uniform_section_width labels rows Hne Hnd Hrows) as [df [Hdf Hw]].
  unfold build_table. rewrite Hdf. cbn [bind]. unfold set_columns.
  rewrite Hw. cbn [length].
  destruct (Nat.eqb (length labels) 5) eqn:E; [|reflexivity].
  apply Nat.eqb_eq in E. contradiction.
Qed.

(** X11. A payload that is not a dict is never parsed: if it is falsy (an
    empty list or string, zero, false, null) it is handled as [Fallback]
    is, and otherwise [response.keys()] raises [AttributeError]. *)
Theorem non_dict_payload_falls_back_or_raises :
  forall (data : json) (symbol interval : option string),
    (forall members, data <> JObj members) ->
    (truthy data = false ->
     norm (Payload data) symbol interval = norm Fallback symbol interval)
    /\ (truthy data = true ->
        exists msg, norm (Payload data) symbol interval = Raises (AttributeError msg)).
Proof.
  intros data symbol interval Hnd. unfold normalize, Payload, Fallback. cbn [fst].
  split; intros Ht.
  - rewrite !parse_falsy by (cbn; auto). reflexivity.
  - unfold parse_time_series. cbn [truthy_opt]. rewrite Ht. cbn [negb].
    destruct data; eauto. exfalso. exact (Hnd members eq_refl).
Qed.

End NormalizerCoverage.

(** * Further properties of the two functions composed *)

Section PipelineCoverage.

Variable ALPHA_VANTAGE_BASE_URL : string.
Variable ALPHA_VANTAGE_API_KEY : string.
Variable requests_get : string -> list (string * string) -> Z -> transport.
Variable Num : Type.
Variable nan : Num.
Variable to_numeric : json -> option Num.
Variable to_datetime : string -> option Timestamp.
Variable DataFrame_of_rows : list (string * json) -> result Frame.
Variable keeps_empty_rows : bool.
Variable generate_demo_stock_data : string -> string -> DataFrame Num.

Local Abbreviation fetch :=
  (fetch_intraday_data ALPHA_VANTAGE_BASE_URL ALPHA_VANTAGE_API_KEY requests_get).
Local Abbreviation request symbol interval api_key :=
  (send ALPHA_VANTAGE_BASE_URL requests_get symbol interval
     (key_or_default ALPHA_VANTAGE_API_KEY api_key)).
Local Abbreviation attempt symbol interval api_key :=
  (try_block ALPHA_VANTAGE_BASE_URL requests_get symbol interval
     (key_or_default ALPHA_VANTAGE_API_KEY api_key)).
Local Abbreviation norm :=
  (normalize Num nan to_numeric to_datetime DataFrame_of_rows keeps_empty_rows
     generate_demo_stock_data).
Local Abbreviation demo := (demo_or_empty Num generate_demo_stock_data).

Lemma demo_for_given_symbol (symbol interval : string) :
  symbol <> "" -> interval <> "" ->
  demo (Some symbol) (Some interval)
  = Returns (generate_demo_stock_data symbol interval).
Proof.
  intros Hs Hi. unfold demo_or_empty. cbn.
  apply String.eqb_neq in Hs, Hi. rewrite Hs, Hi. reflexivity.
Qed.

(** X12. End to end, for a non-empty symbol and interval: when the request
    raises, or the response has a status in 400..599, or its body does not
    parse, or its body is a dict with one of the two marker keys, then
    [parse_time_series] applied to what [fetch_intraday_data] returned,
    with the same symbol and interval, returns the generator's table for
    them. *)
Theorem failed_fetch_is_normalized_to_demo_table :
  forall (symbol interval : string) (api_key : option string),
    symbol <> "" -> interval <> "" ->
    (exists e, request symbol interval api_key = Failed e)
    \/ (exists r, request symbol interval api_key = Responded r
                  /\ ((400 <= status_code r < 600)%Z
                      \/ (exists e, json_body r = Raises e)
                      \/ (exists members,
                             json_body r = Returns (JObj members)
                             /\ (In "Error Message" (map fst members)
                                 \/ In "Note" (map fst members))))) ->
    exists f,
      fetch symbol interval api_key = Returns f
      /\ parse_time_series Num nan to_numeric to_datetime DataFrame_of_rows keeps_empty_rows
           generate_demo_stock_data (fst (outcome f)) (Some symbol) (Some interval)
         = Returns (generate_demo_stock_data symbol interval).
Proof.
  intros symbol interval api_key Hs Hi Hcase.
  assert (Ha : exists e, attempt symbol interval api_key = Raises e).
  { destruct Hcase as [[e He] | [r [Hr Hcase]]].
    - exists e. unfold try_block. rewrite He. reflexivity.
    - destruct Hcase as [Hst | [[e He] | [members [Hj Hm]]]].
      + destruct (raise_for_status_error r Hst) as [msg Hraise].
        eexists. unfold try_block. rewrite Hr, Hraise. reflexivity.
      + unfold try_block. rewrite Hr.
        destruct (raise_for_status r) as [[]|e']; [|cbn; eauto].
        cbn. rewrite He. cbn. eauto.
      + exact (try_block_marker_raises _ _ _ _ _ _ _ Hr Hj Hm). }
  destruct Ha as [e Ha].
  destruct (fetch_after_raise _ _ _ _ _ _ _ Ha) as [line Hf].
  exists (mkFetched [line] Fallback). split; [exact Hf|].
  unfold Fallback. cbn [outcome fst].
  rewrite parse_falsy by reflexivity.
  apply demo_for_given_symbol; assumption.
Qed.

(** X13. The flag of the returned pair does not tell whether the table will
    be demo data: for a dict body without marker and without a key that
    starts with "Time Series" (the empty dict among them), read under a
    status outside 400..599, [fetch_intraday_data] returns the body with
    the flag [False], and [parse_time_series] then returns the generator's
    table. *)
Theorem unflagged_payload_can_yield_demo_table :
  forall (symbol interval : string) (api_key : option string) (r : Response)
         (members : list (string * json)),
    symbol <> "" -> interval <> "" ->
    request symbol interval api_key = Responded r ->
    ~ (400 <= status_code r < 600)%Z ->
    json_body r = Returns (JObj members) ->
    ~ In "Error Message" (map fst members) ->
    ~ In "Note" (map fst members) ->
    (forall k, In k (map fst members) -> prefix "Time Series" k = false) ->
    fetch symbol interval api_key = Returns (mkFetched [] (Some (JObj members), false))
    /\ norm (Some (JObj members), false) (Some symbol) (Some interval)
       = Returns (generate_demo_stock_data symbol interval).
Proof.
  intros symbol interval api_key r members Hs Hi Hr Hst Hj He Hn Hkeys. split.
  - apply fetch_after_return.
    apply (try_block_returns _ _ _ _ _ r); auto.
    + apply raise_for_status_pass. exact Hst.
    + cbn. rewrite (key_absent _ _ He). reflexivity.
    + cbn. rewrite (key_absent _ _ Hn). reflexivity.
  - unfold normalize. cbn [fst].
    destruct members as [|m members].
    + rewrite parse_falsy by reflexivity. apply demo_for_given_symbol; assumption.
    + rewrite parse_without_section;
        [apply demo_for_given_symbol; assumption | discriminate
         | apply find_time_series_key_none; exact Hkeys].
Qed.

(** X14. A body that is a non-empty JSON list without the strings "Error
    Message" and "Note" among its items passes [fetch_intraday_data] as a
    payload, and [parse_time_series] raises [AttributeError] on it: this
    failure of the pair is not turned into demo data. *)
Theorem list_body_is_fetched_and_not_parsed :
  forall (symbol interval : string) (api_key : option string) (r : Response)
         (items : list json) (sym int : option string),
    request symbol interval api_key = Responded r ->
    ~ (400 <= status_code r < 600)%Z ->
    json_body r = Returns (JArr items) ->
    items <> [] ->
    ~ In (JStr "Error Message") items ->
    ~ In (JStr "Note") items ->
    fetch symbol interval api_key = Returns (mkFetched [] (Payload (JArr items)))
    /\ exists msg, norm (Payload (JArr items)) sym int = Raises (AttributeError msg).
Proof.
  intros symbol interval api_key r items sym int Hr Hst Hj Hne He Hn. split.
  - apply fetch_after_return.
    apply (try_block_returns _ _ _ _ _ r); auto.
    + apply raise_for_status_pass. exact Hst.
    + cbn. rewrite (item_absent _ _ He). reflexivity.
    + cbn. rewrite (item_absent _ _ Hn). reflexivity.
  - unfold normalize, Payload, parse_time_series. cbn [fst].
    destruct items; [congruence|]. cbn. eauto.
Qed.

End PipelineCoverage.

(** * The further properties run on concrete payloads *)

(** X1, for the status 503. *)
Lemma error_status_chooses_the_line_sample :
  exists f,
    sample_fetch (answering response_503) = Returns f
    /\ outcome f = Fallback
    /\ exists e,
         raise_for_status response_503 = Raises e
         /\ printed f = ["HTTP error occurred: " ++ str_exn e
                           ++ ". Using demo data for IBM."].
Proof.
  destruct (error_status_chooses_the_line
              "https://www.alphavantage.co/query" "demo" (answering response_503)
              "IBM" "5min" None response_503)
    as (f & Hf & Ho & _ & _ & Hline); [reflexivity | cbn; lia |].
  exists f. split; [exact Hf|]. split; [exact Ho|].
  apply Hline; discriminate.
Defined.

(** X2, for a connect timeout. *)
Lemma connect_timeout_sample :
  sample_fetch (failing (ConnectTimeout "connect timed out"))
  = Returns (mkFetched ["Network connection error. Using demo data for IBM."] Fallback).
Proof.
  apply (proj1 (connect_timeout_is_reported_as_connection_error
                  "https://www.alphavantage.co/query" "demo"
                  (failing (ConnectTimeout "connect timed out"))
                  "IBM" "5min" None "connect timed out")).
  left. reflexivity.
Defined.

(** X3, for the rate-limited response. *)
Lemma fetch_prints_one_line_sample :
  exists cause,
    ["Error occurred: API rate limit reached. Using demo data instead.. Using demo data for IBM."]
    = [cause ++ "Using demo data for " ++ "IBM" ++ "."].
Proof.
  destruct (fetch_prints_one_line_on_Fallback_only
              "https://www.alphavantage.co/query" "demo"
              (answering response_rate_limited) "IBM" "5min" None
              (mkFetched
                 ["Error occurred: API rate limit reached. Using demo data instead.. Using demo data for IBM."]
                 Fallback)
              eq_refl)
    as [[_ H] | [data [Hd _]]]; [exact H | discriminate Hd].
Defined.

(** X4, for a network that answers every request and one that answers
    only requests with the timeout 10. *)
Lemma fetch_depends_on_one_request_sample :
  sample_fetch (answering response_empty_body)
  = sample_fetch (fun _ _ timeout =>
                    if (timeout =? 10)%Z then Responded response_empty_body
                    else Failed (Timeout "read timed out")).
Proof.
  apply (fetch_depends_on_one_request
           "https://www.alphavantage.co/query" "demo"
           (answering response_empty_body)
           (fun _ _ timeout =>
              if (timeout =? 10)%Z then Responded response_empty_body
              else Failed (Timeout "read timed out"))
           "IBM" "5min" None).
  reflexivity.
Defined.

(** X5, for the body [null]. *)
Lemma unusable_body_gives_Fallback_sample :
  exists line, sample_fetch (answering response_null_body)
               = Returns (mkFetched [line] Fallback).
Proof.
  apply (unusable_body_gives_Fallback
           "https://www.alphavantage.co/query" "demo" (answering response_null_body)
           "IBM" "5min" None response_null_body).
  - reflexivity.
  - right. exists JNull. split; reflexivity.
Defined.

(** X6, for a body with both markers, "Note" first. *)
Lemma marker_chooses_the_line_sample :
  sample_fetch (answering response_both_markers)
  = Returns (mkFetched
      ["Error occurred: Invalid symbol: IBM. Using demo data for IBM."] Fallback).
Proof.
  apply (proj1 (marker_chooses_the_line
                  "https://www.alphavantage.co/query" "demo"
                  (answering response_both_markers) "IBM" "5min" None
                  response_both_markers
                  [("Note", JStr "Thank you for using Alpha Vantage!");
                   ("Error Message", JStr "Invalid API call.")]
                  eq_refl
                  ltac:(cbn; lia)
                  eq_refl)).
  right. left. reflexivity.
Defined.

(** X7, for the sample payload, whose section comes after "Meta Data". *)
Lemma first_prefixed_key_sample :
  sample_parse (Some sample_payload) (Some "IBM") (Some "5min")
  = sample_parse
      (Some (JObj [("Time Series (5min)", section_of sample_labels sample_rows)]))
      None None.
Proof.
  apply (first_prefixed_key_selects_the_section SampleNum None sample_to_numeric
           sample_to_datetime sample_DataFrame_of_rows sample_keeps_empty_rows sample_generate
           [("Meta Data", meta_data)] [] "Time Series (5min)"
           (section_of sample_labels sample_rows) (Some "IBM") (Some "5min")).
  - intros k [<-|[]]. reflexivity.
  - reflexivity.
Defined.

(** X8, for the table of the sample payload. *)
Lemma returned_table_is_ascending_sample :
  exists table,
    sample_parse (Some sample_payload) None None = Returns table
    /\ ascending table.
Proof.
  eexists. split; [vm_compute; reflexivity|].
  apply (returned_table_is_ascending SampleNum None sample_to_numeric
           sample_to_datetime sample_DataFrame_of_rows sample_keeps_empty_rows sample_generate
           [("Meta Data", meta_data);
            ("Time Series (5min)", section_of sample_labels sample_rows)]
           (section_of sample_labels sample_rows) None None).
  - exact sample_section.
  - vm_compute. reflexivity.
Defined.

(** X9, for the three rows of the sample payload. *)
Lemma table_has_one_row_per_record_sample :
  exists table stamps,
    sample_parse (Some sample_payload) None None = Returns table
    /\ traverse sample_to_datetime (map fst sample_json_rows) = Some stamps
    /\ Permutation (map timestamp table) stamps
    /\ length table = 3.
Proof.
  eexists.
  destruct (table_has_one_row_per_record SampleNum None sample_to_numeric
              sample_to_datetime sample_DataFrame_of_rows sample_keeps_empty_rows
              sample_generate
              [("Meta Data", meta_data);
               ("Time Series (5min)", section_of sample_labels sample_rows)]
              sample_json_rows None None
              _
              sample_section
              ltac:(repeat (constructor;
                            [cbn; eexists; (split; [reflexivity | discriminate])|]);
                    constructor)
              ltac:(vm_compute; reflexivity))
    as (stamps & Hs & Hp & Hl).
  exists stamps. split; [vm_compute; reflexivity|].
  split; [exact Hs|]. split; [exact Hp | exact Hl].
Defined.

(** X10, for records with four fields. *)
Lemma wrong_number_of_fields_raises_sample :
  sample_parse (Some (JObj four_field_payload)) (Some "IBM") (Some "5min")
  = Raises (ValueError "Length mismatch").
Proof.
  apply (wrong_number_of_fields_raises SampleNum None sample_to_numeric
           sample_to_datetime sample_DataFrame_of_rows sample_keeps_empty_rows sample_generate
           four_field_payload
           ["1. open"; "2. high"; "3. low"; "4. close"]
           [("2024-01-02 09:35:00", ["100.00"; "101.60"; "99.90"; "101.50"]);
            ("2024-01-02 09:30:00", ["99.50"; "100.10"; "99.40"; "100.00"])]).
  - exists "Time Series (5min)". split; reflexivity.
  - discriminate.
  - repeat (constructor; [cbn; intuition discriminate|]). constructor.
  - discriminate.
  - intros r [<-|[<-|[]]]; reflexivity.
Defined.

(** X11, for a list payload. *)
Lemma non_dict_payload_raises_sample :
  exists msg,
    normalize SampleNum None sample_to_numeric sample_to_datetime
      sample_DataFrame_of_rows sample_keeps_empty_rows sample_generate
      (Payload (JArr [JStr "IBM"; JStr "AAPL"])) (Some "IBM") (Some "5min")
    = Raises (AttributeError msg).
Proof.
  apply (proj2 (non_dict_payload_falls_back_or_raises SampleNum None sample_to_numeric
                  sample_to_datetime sample_DataFrame_of_rows sample_keeps_empty_rows sample_generate
                  (JArr [JStr "IBM"; JStr "AAPL"]) (Some "IBM") (Some "5min")
                  ltac:(discriminate))).
  reflexivity.
Defined.

(** X12, for the status 503. *)
Lemma failed_fetch_is_normalized_sample :
  exists f,
    sample_fetch (answering response_503) = Returns f
    /\ sample_parse (fst (outcome f)) (Some "IBM") (Some "5min")
       = Returns (sample_generate "IBM" "5min").
Proof.
  apply (failed_fetch_is_normalized_to_demo_table
           "https://www.alphavantage.co/query" "demo" (answering response_503)
           SampleNum None sample_to_numeric sample_to_datetime
           sample_DataFrame_of_rows sample_keeps_empty_rows sample_generate "IBM" "5min" None).
  - discriminate.
  - discriminate.
  - right. exists response_503. split; [reflexivity|]. left. cbn. lia.
Defined.

(** X13, for a body that only carries an "Information" key. *)
Lemma unflagged_payload_sample :
  sample_fetch (answering response_information)
  = Returns (mkFetched [] (Some (JObj information_payload), false))
  /\ normalize SampleNum None sample_to_numeric sample_to_datetime
       sample_DataFrame_of_rows sample_keeps_empty_rows sample_generate
       (Some (JObj information_payload), false) (Some "IBM") (Some "5min")
     = Returns (sample_generate "IBM" "5min").
Proof.
  apply (unflagged_payload_can_yield_demo_table
           "https://www.alphavantage.co/query" "demo" (answering response_information)
           SampleNum None sample_to_numeric sample_to_datetime
           sample_DataFrame_of_rows sample_keeps_empty_rows sample_generate
           "IBM" "5min" None response_information information_payload).
  - discriminate.
  - discriminate.
  - reflexivity.
  - cbn. lia.
  - reflexivity.
  - cbn. intuition discriminate.
  - cbn. intuition discriminate.
  - intros k [<-|[]]. reflexivity.
Defined.

(** X14, for a body that is a list of two strings. *)
Lemma list_body_sample :
  sample_fetch (answering response_list_body)
  = Returns (mkFetched [] (Payload (JArr [JStr "IBM"; JStr "AAPL"])))
  /\ exists msg,
       normalize SampleNum None sample_to_numeric sample_to_datetime
         sample_DataFrame_of_rows sample_keeps_empty_rows sample_generate
         (Payload (JArr [JStr "IBM"; JStr "AAPL"])) (Some "IBM") (Some "5min")
       = Raises (AttributeError msg).
Proof.
  apply (list_body_is_fetched_and_not_parsed
           "https://www.alphavantage.co/query" "demo" (answering response_list_body)
           SampleNum None sample_to_numeric sample_to_datetime
           sample_DataFrame_of_rows sample_keeps_empty_rows sample_generate
           "IBM" "5min" None response_list_body [JStr "IBM"; JStr "AAPL"]).
  - reflexivity.
  - cbn. lia.
  - reflexivity.
  - discriminate.
  - cbn. intuition discriminate.
  - cbn. intuition discriminate.
Defined.
